(** * Drag-and-drop helpers of the Lancer system for Foundry VTT

    A shallow embedding of [src/module/helpers/dragdrop.ts] (the drop
    resolution, the conversion of registry references to native drops, the
    wiring of drag sources and drop targets) and of the two Handlebars
    helpers for active effects, followed by the properties proved of them.

    Conventions.
    - An optional property ([pack?: string]) is an [option string]: [None]
      is JavaScript's [undefined].  A nullable result is an [option] too.
    - The host's collections ([game.actors], [game.packs], the items of an
      actor, the tokens of a scene) are finite maps keyed by id.
    - The console, the callbacks handed to the wiring functions and the
      flags of a DOM event are explicit state; an uncaught exception (for
      an [async] function: the rejection of its promise) is an outcome of
      its own, [Thrown].
    - [await] is sequential composition: nothing else runs in between.
      An [async] handler that is called without [await] is run to its end
      at the call, and its rejection does not reach the caller. *)

From Stdlib Require Import String Ascii List Bool.
From stdpp Require Import base option strings gmap list.

Local Open Scope string_scope.

(* ================================================================== *)
(** * Part I: the model                                                *)
(* ================================================================== *)

(** ** JavaScript values of the kinds the module handles *)

(** Truthiness of an optional string: [undefined] and the empty string are
    falsy, every other string is truthy. *)
Definition truthy (v : option string) : bool :=
  match v with
  | Some (String _ _) => true
  | _ => false
  end.

(** [v == lit] for an optional string [v] and a string literal. The
    members of a drop are read at their declared type, [string]: a
    payload whose members are of another type (an array, which [==]
    would first turn into a string) is not covered. *)
Definition loose_eq (v : option string) (lit : string) : bool :=
  match v with
  | Some s => String.eqb s lit
  | None => false
  end.

(** [collection.get(key)]: a key that is [undefined] finds nothing. *)
Definition get {A : Type} (collection : gmap string A) (key : option string) : option A :=
  key ≫= (collection !!.).

(** [String.prototype.includes], from position 0. *)
Fixpoint includes (s searchString : string) : bool :=
  if String.prefix searchString s then true
  else match s with
       | EmptyString => false
       | String _ rest => includes rest searchString
       end.

(** ** The host's documents, as far as the module reads them *)

Record LancerItem := {
  item_id : string;
  item_type : string;
}.

Record LancerActor := {
  actor_document_id : string;             (* actor.id *)
  actor_type : string;
  actor_items : gmap string LancerItem;   (* actor.items *)
}.

Record JournalEntry := {
  journal_id : string;
}.

(** A token document. [token.actor] is [null] for a token that has no
    actor: [None]. *)
Record Token := {
  token_actor : option LancerActor;
}.

Record Scene := {
  tokens : gmap string Token;
}.

(** What [pack.getDocument] hands out is typed by the cast at each call
    ([as AnyLancerActor], [as AnyLancerItem], [as JournalEntry]); a cast
    does nothing at run time, so the three are views of one document. *)
Class CompendiumDocuments := {
  Document : Type;
  as_actor : Document -> LancerActor;
  as_item : Document -> LancerItem;
  as_journal : Document -> JournalEntry;
}.

Section Host.
Context {docs : CompendiumDocuments}.

Record Pack := {
  documents : gmap string Document;
}.

(** The global [game]. The module reads [game.journals] (line 309); the
    host keeps its world journal under [game.journal], and a host that
    defines no [game.journals] is [None] here. *)
Record Game := {
  actors : gmap string LancerActor;
  items : gmap string LancerItem;
  journals : option (gmap string JournalEntry);
  scenes : gmap string Scene;
  packs : gmap string Pack;
}.

End Host.

(** ** Native drops (lines 180-234) *)

(** [NativeDrop] as the code can find it after [JSON.parse] and a cast:
    every property may be missing, and one that is there is a string, as
    the type declares. [convert_ref_to_native_drop] builds the
    same record as a [Partial<_PhysicalDrop>]. *)
Record NativeDrop := {
  type : option string;
  id : option string;
  pack : option string;
  actorId : option string;
  tokenId : option string;
  sceneId : option string;
}.

Inductive ResolvedNativeDrop :=
| ResolvedItem (entity : LancerItem)
| ResolvedActor (entity : LancerActor)
| ResolvedJournalEntry (entity : JournalEntry).

(** ** What [dragdrop.ts] imports *)

(** [EntryType] and [RegEntry] come from the machine-mind library. An entry
    type is an enum member; [entry_type_name] is the string it is at run
    time. *)
Class MachineMind := {
  EntryType : Type;
  entry_type_name : EntryType -> string;
  RegEntry : Type;
}.

Section References.
Context {mm : MachineMind}.

(** machine-mind's [RegRef<T>]; [ref_type] is [T | null]. *)
Record RegRef := {
  fallback_lid : string;
  ref_id : string;
  ref_type : option EntryType;
  reg_name : string;
}.

End References.

(** The result of [FoundryReg.parse_reg_args], read through the properties
    [convert_ref_to_native_drop] uses; its declaration is in
    [mm-util/foundry-reg.ts]. *)
Record RegArgs := {
  src : string;
  comp_id : option string;
  scene_id : option string;
  token_id : option string;
  actor_id : option string;
}.

(** A DOM element: its [data-*] attributes and the [draggable] property. *)
Record Element := {
  dataset : gmap string string;
  draggable : bool;
}.

(** A jQuery drag event: the data of [originalEvent.dataTransfer] by
    format ([None] when the event carries no data transfer) and the flags
    the handlers set. *)
Record DomEvent := {
  dataTransfer : option (gmap string string);
  defaultPrevented : bool;
  propagationStopped : bool;
  immediatePropagationStopped : bool;
}.

(** The functions of this repository that [dragdrop.ts] calls and whose
    files are [helpers/commons.ts], [helpers/refs.ts], [mm-util/helpers.ts],
    [mm-util/foundry-reg.ts], [actor/lancer-actor.ts] and
    [item/lancer-item.ts]. [Parsed] is the [any] that [safe_json_parse]
    returns; [as_native_drop] is the cast of line 239 together with the
    test of line 240 ([None] for a falsy value, [null] included); [is_ref]
    is a type guard, [Some r] when it holds of a value that is then read as
    the reference [r]. *)
Class Imports {mm : MachineMind} {docs : CompendiumDocuments} := {
  Parsed : Type;
  safe_json_parse : string -> Parsed;
  as_native_drop : Parsed -> option NativeDrop;
  is_ref : Parsed -> option RegRef;
  JSON_stringify : RegRef -> string;
  recreate_ref_from_element : Element -> option RegRef;
  is_item_type : EntryType -> bool;
  is_actor_type : EntryType -> bool;
  get_pack_id : EntryType -> string;
  parse_reg_args : string -> RegArgs;
  FoundryReg_resolve : Game -> RegRef -> option RegEntry;
}.

(** ** Effects *)

Inductive ConsoleLevel := ConsoleLog | ConsoleError.

Record ConsoleEntry := {
  level : ConsoleLevel;
  message : string;
}.

Inductive Outcome (A : Type) :=
| Returned (a : A)
| Thrown (error : string).
Arguments Returned {A} a.
Arguments Thrown {A} error.

Section Effects.
Context {docs : CompendiumDocuments}.

(** Everything a call can read or write: the host's collections and the
    browser console. *)
Record World := {
  game : Game;
  console : list ConsoleEntry;
}.

Definition M (A : Type) : Type := World -> Outcome A * World.

Definition ret {A : Type} (a : A) : M A := fun w => (Returned a, w).

Definition bind {A B : Type} (m : M A) (k : A -> M B) : M B :=
  fun w =>
    match m w with
    | (Returned a, w') => k a w'
    | (Thrown e, w') => (Thrown e, w')
    end.

Definition throw {A : Type} (error : string) : M A := fun w => (Thrown error, w).

(** Reading the global [game]. *)
Definition the_game : M Game := fun w => (Returned (game w), w).

Definition console_write (l : ConsoleLevel) (msg : string) : M unit :=
  fun w =>
    (Returned tt, {| game := game w; console := console w ++ [{| level := l; message := msg |}] |}).

(** [receiver!.method(...)] and [receiver.property] on a receiver that may
    be [undefined]: a [TypeError] when it is. *)
Definition non_null {A : Type} (receiver : option A) : M A :=
  match receiver with
  | Some a => ret a
  | None => throw "TypeError: Cannot read properties of undefined"
  end.

End Effects.

#[global] Instance M_ret {docs : CompendiumDocuments} : MRet M := @ret _.
#[global] Instance M_bind {docs : CompendiumDocuments} : MBind M := fun A B k m => bind m k.

(** ** [resolve_native_drop] (lines 237-323) *)

Section Dragdrop.
Context {mm : MachineMind} {docs : CompendiumDocuments} {imports : Imports}.

(** [pack.getDocument(id)], awaited: the document of that id, if any. *)
Definition getDocument (p : Pack) (document_id : option string) : M (option Document) :=
  mret (get (documents p) document_id).

(** The branch for [drop.type == "Item"], up to the value of [item]. *)
Definition resolve_item (g : Game) (drop : NativeDrop) : M (option LancerItem) :=
  if truthy (pack drop) && truthy (actorId drop) then
    (* Case 1 - Item is from a Compendium actor item *)
    actor ← match get (packs g) (pack drop) with
            | Some p => getDocument p (actorId drop)
            | None => mret None
            end;
    mret (actor ≫= fun a => get (actor_items (as_actor a)) (id drop))
  else if truthy (sceneId drop) && truthy (tokenId drop) then
    (* Case 2 - Item is a token actor item *)
    let actor :=
      get (scenes g) (sceneId drop) ≫= fun s => get (tokens s) (tokenId drop) ≫= token_actor in
    mret (actor ≫= fun a => get (actor_items a) (id drop))
  else if truthy (actorId drop) then
    (* Case 3 - Item is a game actor item *)
    let actor := get (actors g) (actorId drop) in
    mret (actor ≫= fun a => get (actor_items a) (id drop))
  else if truthy (pack drop) then
    (* Case 4 - Item is from a Compendium *)
    p ← non_null (get (packs g) (pack drop));
    d ← getDocument p (id drop);
    mret (as_item <$> d)
  else
    (* Case 5 - item is a game item *)
    mret (get (items g) (id drop)).

(** The branch for [drop.type == "Actor"], up to the value of [actor]. *)
Definition resolve_actor (g : Game) (drop : NativeDrop) : M (option LancerActor) :=
  if truthy (pack drop) then
    (* Case 1 - Actor is from a Compendium pack *)
    p ← non_null (get (packs g) (pack drop));
    d ← getDocument p (id drop);
    mret (as_actor <$> d)
  else if truthy (sceneId drop) && truthy (actorId drop) then
    (* Case 2 - Actor is a scene token *)
    mret (get (scenes g) (sceneId drop) ≫= fun s => get (tokens s) (tokenId drop)
            ≫= token_actor)
  else
    (* Case 3 - Actor is a game actor *)
    mret (get (actors g) (id drop)).

(** The branch for [drop.type == "JournalEntry"], up to the value of
    [journal]. *)
Definition resolve_journal (g : Game) (drop : NativeDrop) : M (option JournalEntry) :=
  if truthy (pack drop) then
    (* Case 1 - JournalEntry is from a Compendium pack *)
    p ← non_null (get (packs g) (pack drop));
    d ← getDocument p (id drop);
    mret (as_journal <$> d)
  else
    (* Case 2 - JournalEntry is a World entity *)
    world_journals ← non_null (journals g);
    mret (get world_journals (id drop)).

Definition resolve_native_drop (event_data : string) : M (option ResolvedNativeDrop) :=
  match as_native_drop (safe_json_parse event_data) with
  | None => mret None
  | Some drop =>
      g ← the_game;
      resolved ←
        (if loose_eq (type drop) "Item" then
           item ← resolve_item g drop; mret (ResolvedItem <$> item)
         else if loose_eq (type drop) "Actor" then
           actor ← resolve_actor g drop; mret (ResolvedActor <$> actor)
         else if loose_eq (type drop) "JournalEntry" then
           journal ← resolve_journal g drop; mret (ResolvedJournalEntry <$> journal)
         else mret None);
      match resolved with
      | Some r => mret (Some r)
      | None =>
          (* All else fails *)
          console_write ConsoleLog "Couldn't resolve native drop:";;
          mret None
      end
  end.

End Dragdrop.

(** ** [convert_ref_to_native_drop] (lines 326-385) *)

Definition empty_drop : NativeDrop :=
  {| type := None; id := None; pack := None; actorId := None; tokenId := None; sceneId := None |}.

(** The assignments [evt.type = v], [evt.pack = v], ... *)
Definition set_type (v : option string) (evt : NativeDrop) : NativeDrop :=
  {| type := v; id := id evt; pack := pack evt;
     actorId := actorId evt; tokenId := tokenId evt; sceneId := sceneId evt |}.
Definition set_id (v : option string) (evt : NativeDrop) : NativeDrop :=
  {| type := type evt; id := v; pack := pack evt;
     actorId := actorId evt; tokenId := tokenId evt; sceneId := sceneId evt |}.
Definition set_pack (v : option string) (evt : NativeDrop) : NativeDrop :=
  {| type := type evt; id := id evt; pack := v;
     actorId := actorId evt; tokenId := tokenId evt; sceneId := sceneId evt |}.
Definition set_actorId (v : option string) (evt : NativeDrop) : NativeDrop :=
  {| type := type evt; id := id evt; pack := pack evt;
     actorId := v; tokenId := tokenId evt; sceneId := sceneId evt |}.
Definition set_tokenId (v : option string) (evt : NativeDrop) : NativeDrop :=
  {| type := type evt; id := id evt; pack := pack evt;
     actorId := actorId evt; tokenId := v; sceneId := sceneId evt |}.
Definition set_sceneId (v : option string) (evt : NativeDrop) : NativeDrop :=
  {| type := type evt; id := id evt; pack := pack evt;
     actorId := actorId evt; tokenId := tokenId evt; sceneId := v |}.

Section Conversion.
Context {mm : MachineMind} {docs : CompendiumDocuments} {imports : Imports}.

(** [game.scenes.get(sceneId)?.tokens.get(tokenId)?.actor.id]: the two
    [?.] let a missing scene and a missing token through as [undefined];
    the actor of a token that is found is read without a guard, and [.id]
    on [null] throws. *)
Definition token_actor_id (g : Game) (scene token : option string) : M (option string) :=
  match get (scenes g) scene ≫= fun s => get (tokens s) token with
  | None => mret None
  | Some t =>
      match token_actor t with
      | Some actor => mret (Some (actor_document_id actor))
      | None => throw "TypeError: Cannot read properties of null"
      end
  end.

Definition convert_ref_to_native_drop (ref : RegRef) : M (option NativeDrop) :=
  (* Can't handle null typed refs *)
  if negb (truthy (entry_type_name <$> ref_type ref)) then
    console_write ConsoleError
      "Attempted to turn a null-typed ref into a native drop. This is, generally, impossible";;
    mret None
  else
    match ref_type ref with
    | None => mret None   (* not reached: a missing type is falsy *)
    | Some ref_type =>
        (* Build out our scaffold *)
        let evt := empty_drop in
        (* Parse the reg name *)
        let rn := parse_reg_args (reg_name ref) in
        (* Decide type *)
        match (if is_item_type ref_type then Some (set_type (Some "Item") evt)
               else if is_actor_type ref_type then Some (set_type (Some "Actor") evt)
               else None) with
        | None =>
            console_write ConsoleError
              "Couldn't convert the following ref into a native foundry drop event:";;
            mret None
        | Some evt =>
          (* Decide pack *)
          let evt :=
            if String.eqb (src rn) "comp_core" then set_pack (Some (get_pack_id ref_type)) evt
            else if String.eqb (src rn) "comp" then set_pack (comp_id rn) evt
            else evt in
          (* Decide scene *)
          let evt :=
            if String.eqb (src rn) "scene" then
              set_tokenId (Some (ref_id ref)) (set_sceneId (scene_id rn) evt)
            else if String.eqb (src rn) "scene_token" then
              set_tokenId (token_id rn) (set_sceneId (scene_id rn) evt)
            else evt in
          g ← the_game;
          (* Decide actor id *)
          evt ←
            (if String.eqb (src rn) "comp_actor" then mret (set_actorId (actor_id rn) evt)
             else if String.eqb (src rn) "game_actor" then mret (set_actorId (actor_id rn) evt)
             else if String.eqb (src rn) "scene_token" then
               actor ← token_actor_id g (sceneId evt) (tokenId evt);
               mret (set_actorId actor evt)
             else mret evt);
          (* Decide ID, which is slightly weird for scene token actors *)
          evt ←
            (if String.eqb (src rn) "scene" then
               actor ← token_actor_id g (sceneId evt) (tokenId evt);
               mret (set_id actor evt)
             else mret (set_id (Some (ref_id ref)) evt));
          (* Done *)
          mret (Some evt)
        end
    end.

End Conversion.

(** ** Drop targets: [enable_dropping] (lines 43-124) *)

Inductive HoverMode := Enter | Leave.
Inductive DragMode := Start | Stop.

Definition preventDefault (event : DomEvent) : DomEvent :=
  {| dataTransfer := dataTransfer event; defaultPrevented := true;
     propagationStopped := propagationStopped event;
     immediatePropagationStopped := immediatePropagationStopped event |}.

Definition stopPropagation (event : DomEvent) : DomEvent :=
  {| dataTransfer := dataTransfer event; defaultPrevented := defaultPrevented event;
     propagationStopped := true;
     immediatePropagationStopped := immediatePropagationStopped event |}.

Definition stopImmediatePropagation (event : DomEvent) : DomEvent :=
  {| dataTransfer := dataTransfer event; defaultPrevented := defaultPrevented event;
     propagationStopped := true; immediatePropagationStopped := true |}.

(** [event.originalEvent?.dataTransfer?.getData(format)]: [undefined]
    without a data transfer, the empty string when it holds nothing for
    the format. *)
Definition getData (event : DomEvent) (format : string) : option string :=
  (fun dt => default EmptyString (dt !! format)) <$> dataTransfer event.

(** [dataTransfer.setData(format, data)] *)
Definition setData (format data : string) (event : DomEvent) (dt : gmap string string) : DomEvent :=
  {| dataTransfer := Some (<[format := data]> dt); defaultPrevented := defaultPrevented event;
     propagationStopped := propagationStopped event;
     immediatePropagationStopped := immediatePropagationStopped event |}.

(** [v || ""] *)
Definition or_empty (v : option string) : string :=
  match v with
  | Some s => s
  | None => EmptyString
  end.

Section Wiring.
Context {mm : MachineMind} {docs : CompendiumDocuments} {imports : Imports}.

(** A handler updates the event it is given and may return a value. *)
Definition DropHandlerFunc : Type := string -> Element -> DomEvent -> M DomEvent.
Definition AllowDropPredicateFunc : Type := string -> Element -> DomEvent -> bool.
Definition HoverHandlerFunc : Type := HoverMode -> string -> Element -> DomEvent -> M DomEvent.
Definition DragDeriveDataFunc : Type := Element -> DomEvent -> string.
Definition DragStartEndFunc : Type := DragMode -> Element -> DomEvent -> M DomEvent.

(** [!allow_drop || allow_drop(data, item, event)] *)
Definition drop_permitted (allow_drop : option AllowDropPredicateFunc)
    (data : string) (item : Element) (event : DomEvent) : bool :=
  match allow_drop with
  | None => true
  | Some allowed => allowed data item event
  end.

(** A handler bound with jQuery's [.on] that returns [false]: jQuery then
    calls [preventDefault] and [stopPropagation] on the event. *)
Definition returned_false (event : DomEvent) : DomEvent * option bool :=
  (stopPropagation (preventDefault event), Some false).

(** The handler bound to ["dragover"]; the second component is the value
    it returns, [None] for [undefined]. *)
Definition dragover_handler (allow_drop : option AllowDropPredicateFunc)
    (item : Element) (event : DomEvent) : M (DomEvent * option bool) :=
  let data := getData event "text/plain" in
  if negb (truthy data) then mret (event, None)
  else if drop_permitted allow_drop (or_empty data) item event then
    mret (returned_false (preventDefault event))
  else mret (event, None).

(** The handler bound to ["dragenter"]. *)
Definition dragenter_handler (allow_drop : option AllowDropPredicateFunc)
    (hover_handler : option HoverHandlerFunc)
    (item : Element) (event : DomEvent) : M (DomEvent * option bool) :=
  let data := getData event "text/plain" in
  if negb (truthy data) then mret (event, None)
  else if drop_permitted allow_drop (or_empty data) item event then
    let event := preventDefault event in
    event ← match hover_handler with
            | Some hover => hover Enter (or_empty data) item event
            | None => mret event
            end;
    mret (returned_false event)
  else mret (event, Some true).

(** The handler bound to ["dragleave"] when there is a hover handler. *)
Definition dragleave_handler (allow_drop : option AllowDropPredicateFunc)
    (hover_handler : HoverHandlerFunc)
    (item : Element) (event : DomEvent) : M (DomEvent * option bool) :=
  let data := getData event "text/plain" in
  if negb (truthy data) then mret (event, None)
  else if drop_permitted allow_drop (or_empty data) item event then
    event ← hover_handler Leave (or_empty data) item event;
    mret (event, None)
  else mret (event, None).

(** The handler bound to ["drop"]. The drop handlers of this module are
    [async] and the call is not awaited: a handler that throws only
    rejects its promise, and [preventDefault] is called all the same.
    The model runs the handler before [preventDefault]; after a rejection
    it keeps the event as it was dispatched. *)
Definition drop_event_handler (drop_handler : DropHandlerFunc)
    (item : Element) (event : DomEvent) : M (DomEvent * option bool) :=
  let data := getData event "text/plain" in
  if negb (truthy data) then mret (event, None)
  else fun w =>
    match drop_handler (or_empty data) item event w with
    | (Returned handled, w') => (Returned (preventDefault handled, None), w')
    | (Thrown _, w') => (Returned (preventDefault event, None), w')
    end.

(** What [enable_dropping] binds to one item. *)
Record DropBindings := {
  drop_target : Element;
  allow_drop_predicate : option AllowDropPredicateFunc;
  on_dragover : DomEvent -> M (DomEvent * option bool);
  on_dragenter : DomEvent -> M (DomEvent * option bool);
  on_dragleave : option (DomEvent -> M (DomEvent * option bool));
  on_drop_event : DomEvent -> M (DomEvent * option bool);
}.

Definition enable_dropping (items : list Element) (drop_handler : DropHandlerFunc)
    (allow_drop : option AllowDropPredicateFunc)
    (hover_handler : option HoverHandlerFunc) : list DropBindings :=
  (fun item =>
     {| drop_target := item;
        allow_drop_predicate := allow_drop;
        on_dragover := dragover_handler allow_drop item;
        on_dragenter := dragenter_handler allow_drop hover_handler item;
        on_dragleave := (fun hover => dragleave_handler allow_drop hover item) <$> hover_handler;
        on_drop_event := drop_event_handler drop_handler item |}) <$> items.

End Wiring.

(** ** Drag sources: [enable_dragging] (lines 139-178) *)

Section Dragging.
Context {mm : MachineMind} {docs : CompendiumDocuments} {imports : Imports}.

(** The handler bound to ["dragstart"]. *)
Definition dragstart_handler (data_transfer_func : DragDeriveDataFunc)
    (start_stop_func : option DragStartEndFunc)
    (item : Element) (event : DomEvent) : M DomEvent :=
  (* Set data using callback *)
  dt ← non_null (dataTransfer event);
  let event := setData "text/plain" (data_transfer_func item event) event dt in
  (* We don't want weird double trouble on drags *)
  let event := stopImmediatePropagation (stopPropagation event) in
  (* Trigger start if necessary *)
  match start_stop_func with
  | Some start_stop => start_stop Start item event
  | None => mret event
  end.

(** The handler bound to ["dragend"]. *)
Definition dragend_handler (start_stop_func : option DragStartEndFunc)
    (item : Element) (event : DomEvent) : M DomEvent :=
  match start_stop_func with
  | Some start_stop => start_stop Stop item event
  | None => mret event
  end.

(** What [enable_dragging] leaves of one item: the element, now draggable,
    and its two handlers. *)
Record DragBindings := {
  drag_source : Element;
  on_dragstart : DomEvent -> M DomEvent;
  on_dragend : DomEvent -> M DomEvent;
}.

(** [items.prop("draggable", true)] on one element. *)
Definition make_draggable (item : Element) : Element :=
  {| dataset := dataset item; draggable := true |}.

Definition enable_dragging (items : list Element) (data_transfer_func : DragDeriveDataFunc)
    (start_stop_func : option DragStartEndFunc) : list DragBindings :=
  (fun item =>
     {| drag_source := item;
        on_dragstart := dragstart_handler data_transfer_func start_stop_func item;
        on_dragend := dragend_handler start_stop_func item |}) <$> (make_draggable <$> items).

(** ** References: [enable_simple_ref_dropping], [enable_simple_ref_dragging]
    (lines 390-453) *)

(** A reference's type as [String.prototype.includes] reads its argument:
    the member's own string, and ["null"] for [null]. *)
Definition type_text (ref : RegRef) : string :=
  match ref_type ref with
  | Some t => entry_type_name t
  | None => "null"
  end.

(** [new FoundryReg().resolve(new OpCtx(), ref)], awaited: a read of the
    host's collections. *)
Definition resolve (ref : RegRef) : M (option RegEntry) :=
  g ← the_game; mret (FoundryReg_resolve g ref).

(** The drop handler (lines 397-422). *)
Definition simple_ref_drop_handler
    (on_drop : RegEntry -> Element -> DomEvent -> M DomEvent) : DropHandlerFunc :=
  fun ref_json dest evt =>
    let recon_ref := safe_json_parse ref_json in
    let dest_type := dataset dest !! "type" in
    match is_ref recon_ref with
    | None =>
        (* If it isn't a ref, we don't handle *)
        mret evt
    | Some recon_ref =>
        if truthy dest_type && negb (includes (or_empty dest_type) (type_text recon_ref)) then
          (* If it doesn't match type, we also don't handle *)
          mret evt
        else
          (* It is a ref, so we stop anyone else from handling the drop *)
          let evt := stopPropagation evt in
          resolved ← resolve recon_ref;
          match resolved with
          | Some entry => on_drop entry dest evt
          | None => console_write ConsoleError "Failed to resolve ref";; mret evt
          end
    end.

(** The allow-drop predicate (lines 425-433). *)
Definition simple_ref_allow_drop : AllowDropPredicateFunc :=
  fun data dest _ =>
    (* Parse our drag data as a ref *)
    match is_ref (safe_json_parse data) with
    | Some recon_ref =>
        let dest_type := dataset dest !! "type" in
        includes (or_empty dest_type) (type_text recon_ref)
    | None => false
    end.

Definition enable_simple_ref_dropping (items : list Element)
    (on_drop : RegEntry -> Element -> DomEvent -> M DomEvent)
    (hover_handler : option HoverHandlerFunc) : list DropBindings :=
  enable_dropping items (simple_ref_drop_handler on_drop) (Some simple_ref_allow_drop)
    hover_handler.

(** The payload of a dragged element (lines 442-450). *)
Definition simple_ref_drag_data : DragDeriveDataFunc :=
  fun drag_src _ =>
    (* Drag a JSON ref *)
    match recreate_ref_from_element drag_src with
    | Some ref => JSON_stringify ref
    | None => EmptyString
    end.

Definition enable_simple_ref_dragging (items : list Element)
    (start_stop : option DragStartEndFunc) : list DragBindings :=
  enable_dragging items simple_ref_drag_data start_stop.

End Dragging.

(** ** The effect helpers (second file, lines 542-581) *)

Record LancerActiveEffect := {
  uuid : string;
  label : string;
}.

(** One entry of [prepareActiveEffectCategories]. *)
Record EffectCategory := {
  category_label : string;
  effects : list LancerActiveEffect;
}.

Definition quot : string := String "034"%char EmptyString.
Definition newline : string := String "010"%char EmptyString.

(** The constant pieces of the template literal of [effect_view]. *)
Definition effect_open : string :=
  "<div class=" +:+ quot +:+ "flexrow active-effect" +:+ quot +:+ " data-uuid=" +:+ quot.
Definition effect_middle : string :=
  quot +:+ ">" +:+ newline +:+ "                <div>" +:+ newline
  +:+ "                    Label: ".
Definition effect_close : string :=
  newline +:+ "                </div>" +:+ newline +:+ "                <a class=" +:+ quot
  +:+ "lancer-context-menu" +:+ quot +:+ " data-context-menu=" +:+ quot +:+ "active-effect"
  +:+ quot +:+ ">" +:+ newline +:+ "                    <i class=" +:+ quot
  +:+ "fas fa-ellipsis-v" +:+ quot +:+ "></i>" +:+ newline +:+ "                </a>"
  +:+ newline +:+ "            </div>".

(** Handlebars helper for a single effect *)
Definition effect_view (effect : LancerActiveEffect) : string :=
  let label := label effect in
  effect_open +:+ uuid effect +:+ effect_middle +:+ label +:+ effect_close.

(** The constant pieces of a category's card and of the whole view. *)
Definition card_open : string :=
  newline +:+ "        <div class=" +:+ quot +:+ "card clipped" +:+ quot +:+ ">" +:+ newline
  +:+ "            <span class=" +:+ quot +:+ "lancer-header submajor" +:+ quot +:+ ">".
Definition card_middle : string :=
  "</span>" +:+ newline +:+ "            <div class=" +:+ quot +:+ "flexcol" +:+ quot +:+ ">"
  +:+ newline +:+ "                ".
Definition card_close : string :=
  newline +:+ "            </div>" +:+ newline +:+ "        </div>" +:+ newline +:+ "        ".
Definition view_open : string := "<div class=" +:+ quot +:+ "flexcol" +:+ quot +:+ ">".
Definition view_close : string := " </div>".

(** [array.join(separator)] *)
Definition join (separator : string) (array : list string) : string :=
  String.concat separator array.

(** The string pushed for one category (lines 571-578). *)
Definition category_card (cat : EffectCategory) : string :=
  card_open +:+ category_label cat +:+ card_middle
  +:+ join EmptyString (effect_view <$> effects cat) +:+ card_close.

(** Handlebars helper for an entire smattering of effects *)
Definition effect_categories_view (effects : list EffectCategory) : string :=
  let categories :=
    fold_left (fun categories cat => (categories ++ [category_card cat])%list) effects [] in
  view_open +:+ join EmptyString categories +:+ view_close.

(** The strings of a list, one after the other. *)
Definition concatenation (fragments : list string) : string :=
  foldr String.append EmptyString fragments.

(** ** Native drops on a sheet: [enable_native_dropping] (lines 456-509) *)

(** What the drop callback receives: [resolved.entity], an actor, an item
    or a journal entry. *)
Inductive DroppedEntity :=
| DroppedItem (i : LancerItem)
| DroppedActor (a : LancerActor)
| DroppedJournalEntry (j : JournalEntry).

Definition entity (resolved : ResolvedNativeDrop) : DroppedEntity :=
  match resolved with
  | ResolvedItem e => DroppedItem e
  | ResolvedActor e => DroppedActor e
  | ResolvedJournalEntry e => DroppedJournalEntry e
  end.

(** The type the handler compares (lines 479-484): ["journal"] for a
    journal entry, [entity.data.type] otherwise. *)
Definition resolved_type (resolved : ResolvedNativeDrop) : string :=
  match resolved with
  | ResolvedJournalEntry _ => "journal"
  | ResolvedItem e => item_type e
  | ResolvedActor e => actor_type e
  end.

Section NativeDropping.
Context {mm : MachineMind} {docs : CompendiumDocuments} {imports : Imports}.

(** [pdata?.name !== undefined] for the value [safe_json_parse] returned:
    whether it has a member of that name. Like [Parsed] itself the test
    belongs to the host's values. *)
Variable member_defined : Parsed → string → bool.

(** An element of [allowed_types]: an entry type or ["journal"]. *)
Inductive AllowedType :=
| AllowedEntry (t : EntryType)
| AllowedJournal.

Definition allowed_type_name (a : AllowedType) : string :=
  match a with
  | AllowedEntry t => entry_type_name t
  | AllowedJournal => "journal"
  end.

(** [dest[0].dataset.type ?? (allowed_types ?? []).join(" ")] *)
Definition native_dest_type (dest : Element) (allowed_types : option (list AllowedType)) : string :=
  match dataset dest !! "type" with
  | Some dest_type => dest_type
  | None => join " " (allowed_type_name <$> default [] allowed_types)
  end.

(** The drop handler (lines 468-494). *)
Definition native_drop_handler
    (on_drop : DroppedEntity → Element → DomEvent → M DomEvent)
    (allowed_types : option (list AllowedType)) : DropHandlerFunc :=
  fun drop_json dest evt =>
    (* We resolve it as a real item *)
    resolved ← resolve_native_drop drop_json;
    match resolved with
    | None =>
        (* If it doesn't exist, well, darn *)
        mret evt
    | Some resolved =>
        let evt := stopPropagation evt in
        (* Figure out its type *)
        let type := resolved_type resolved in
        (* Get our actual allowed types, as it can be overriden by data-type *)
        let dest_type := native_dest_type dest allowed_types in
        if negb (truthy (Some dest_type)) || includes dest_type type then
          (* We're golden. Call the callback *)
          on_drop (entity resolved) dest evt
        else mret evt
    end.

(** The allow-drop predicate (lines 495-506). *)
Definition native_allow_drop : AllowDropPredicateFunc :=
  fun data dest _ =>
    let pdata := safe_json_parse data in
    if member_defined pdata "id" && member_defined pdata "type" then true else false.

Definition enable_native_dropping (items : list Element)
    (on_drop : DroppedEntity → Element → DomEvent → M DomEvent)
    (allowed_types : option (list AllowedType))
    (hover_handler : option HoverHandlerFunc) : list DropBindings :=
  enable_dropping items (native_drop_handler on_drop allowed_types) (Some native_allow_drop)
    hover_handler.

End NativeDropping.

(** ** The locations of a drop, case by case

    What each branch of [resolve_native_drop] looks up, written without
    the plumbing: the first case that applies decides the one location
    that is consulted. A pack that the game does not have yields nothing
    in the first case of an item and a [TypeError] where the pack alone
    locates the document. *)

Definition undefined_receiver {A : Type} : Outcome A :=
  Thrown "TypeError: Cannot read properties of undefined".

Definition null_receiver {A : Type} : Outcome A :=
  Thrown "TypeError: Cannot read properties of null".

Section Locations.
Context {docs : CompendiumDocuments}.

Definition item_location (g : Game) (drop : NativeDrop) : Outcome (option LancerItem) :=
  if truthy (pack drop) && truthy (actorId drop) then
    (* the item embedded in the compendium actor *)
    Returned (get (packs g) (pack drop) ≫= fun p =>
              get (documents p) (actorId drop) ≫= fun a =>
              get (actor_items (as_actor a)) (id drop))
  else if truthy (sceneId drop) && truthy (tokenId drop) then
    (* the item embedded in the actor of the token *)
    Returned (get (scenes g) (sceneId drop) ≫= fun s =>
              get (tokens s) (tokenId drop) ≫= fun t =>
              token_actor t ≫= fun a =>
              get (actor_items a) (id drop))
  else if truthy (actorId drop) then
    (* the item on the world actor *)
    Returned (get (actors g) (actorId drop) ≫= fun a => get (actor_items a) (id drop))
  else if truthy (pack drop) then
    (* the document of the compendium pack *)
    match get (packs g) (pack drop) with
    | Some p => Returned (as_item <$> get (documents p) (id drop))
    | None => undefined_receiver
    end
  else
    (* the world item *)
    Returned (get (items g) (id drop)).

Definition actor_location (g : Game) (drop : NativeDrop) : Outcome (option LancerActor) :=
  if truthy (pack drop) then
    (* the document of the compendium pack *)
    match get (packs g) (pack drop) with
    | Some p => Returned (as_actor <$> get (documents p) (id drop))
    | None => undefined_receiver
    end
  else if truthy (sceneId drop) && truthy (actorId drop) then
    (* the synthetic actor of the token *)
    Returned (get (scenes g) (sceneId drop) ≫= fun s =>
              get (tokens s) (tokenId drop) ≫= token_actor)
  else
    (* the world actor *)
    Returned (get (actors g) (id drop)).

Definition journal_location (g : Game) (drop : NativeDrop) : Outcome (option JournalEntry) :=
  if truthy (pack drop) then
    (* the document of the compendium pack *)
    match get (packs g) (pack drop) with
    | Some p => Returned (as_journal <$> get (documents p) (id drop))
    | None => undefined_receiver
    end
  else
    (* the world journal entry, read from [game.journals] *)
    match journals g with
    | Some world_journals => Returned (get world_journals (id drop))
    | None => undefined_receiver
    end.

(** The id of the actor of a token of a scene: nothing when the scene or
    the token is missing, a [TypeError] for a token without an actor. *)
Definition token_actor_id_of (g : Game) (scene token : option string) :
    Outcome (option string) :=
  match get (scenes g) scene ≫= fun s => get (tokens s) token with
  | None => Returned None
  | Some t =>
      match token_actor t with
      | Some actor => Returned (Some (actor_document_id actor))
      | None => null_receiver
      end
  end.

End Locations.

(** The token a reference reads while it is converted: the one its id
    names for a reference into a scene, the one its registry names for a
    reference into a token, none otherwise. *)
Definition referenced_token_actor {mm : MachineMind} {docs : CompendiumDocuments}
    (g : Game) (rn : RegArgs) (ref : RegRef) : Outcome (option string) :=
  if String.eqb (src rn) "scene" then token_actor_id_of g (scene_id rn) (Some (ref_id ref))
  else if String.eqb (src rn) "scene_token" then token_actor_id_of g (scene_id rn) (token_id rn)
  else Returned None.

(** What [resolve_native_drop] makes of the value found: the tagged
    entity, [null] for nothing, and the exception if the lookup threw. *)
Definition tagged {A : Type} (tag : A → ResolvedNativeDrop)
    (found : Outcome (option A)) : Outcome (option ResolvedNativeDrop) :=
  match found with
  | Returned entity => Returned (tag <$> entity)
  | Thrown e => Thrown e
  end.

(** The location of a drop of any type: the branch its [type] selects,
    and nothing for a type that has no branch. *)
Definition drop_location {docs : CompendiumDocuments} (g : Game) (drop : NativeDrop) :
    Outcome (option ResolvedNativeDrop) :=
  if loose_eq (type drop) "Item" then tagged ResolvedItem (item_location g drop)
  else if loose_eq (type drop) "Actor" then tagged ResolvedActor (actor_location g drop)
  else if loose_eq (type drop) "JournalEntry" then
    tagged ResolvedJournalEntry (journal_location g drop)
  else Returned None.

(** The world after one more line on the console. *)
Definition with_console_entry {docs : CompendiumDocuments} (w : World)
    (l : ConsoleLevel) (msg : string) : World :=
  {| game := game w; console := console w ++ [{| level := l; message := msg |}] |}.

(** ** Frame conditions on a computation *)

Section Frames.
Context {docs : CompendiumDocuments}.

(** [m] leaves the host's collections as it found them. *)
Definition reads_only {A : Type} (m : M A) : Prop :=
  ∀ w, game (m w).2 = game w.

(** What [m] returns or throws, and the collections it leaves, are decided
    by the collections it starts from: nothing else of the world counts. *)
Definition host_determined {A : Type} (m : M A) : Prop :=
  ∀ w1 w2, game w1 = game w2 → (m w1).1 = (m w2).1 ∧ game (m w1).2 = game (m w2).2.

End Frames.

(** ** A concrete instance, to run the model

    The interfaces above are instantiated here so that the functions can
    be evaluated on actual payloads: a sample of machine-mind's entry
    types, compendium documents of the three kinds, and a decoder for the
    JSON of flat objects (string or [null] members, no escapes). *)

Module Sample.

Inductive SampleEntryType := Mech | Pilot | Npc | Frame | MechWeapon | Skill | Sitrep.

Definition sample_name (t : SampleEntryType) : string :=
  match t with
  | Mech => "mech" | Pilot => "pilot" | Npc => "npc"
  | Frame => "frame" | MechWeapon => "mech_weapon" | Skill => "skill"
  | Sitrep => "sitrep"
  end.

Definition sample_of_name (s : string) : option SampleEntryType :=
  find (fun t => String.eqb (sample_name t) s) [Mech; Pilot; Npc; Frame; MechWeapon; Skill; Sitrep].

Definition sample_machine_mind : MachineMind :=
  {| EntryType := SampleEntryType; entry_type_name := sample_name; RegEntry := string |}.

Inductive SampleDocument :=
| ActorDocument (a : LancerActor)
| ItemDocument (i : LancerItem)
| JournalDocument (j : JournalEntry).

Definition document_id (d : SampleDocument) : string :=
  match d with
  | ActorDocument a => actor_document_id a
  | ItemDocument i => item_id i
  | JournalDocument j => journal_id j
  end.

(** Reading a document as a kind it is not keeps its id and nothing else. *)
Definition sample_documents : CompendiumDocuments :=
  {| Document := SampleDocument;
     as_actor := fun d =>
       match d with
       | ActorDocument a => a
       | _ => {| actor_document_id := document_id d; actor_type := EmptyString; actor_items := ∅ |}
       end;
     as_item := fun d =>
       match d with
       | ItemDocument i => i
       | _ => {| item_id := document_id d; item_type := EmptyString |}
       end;
     as_journal := fun d => {| journal_id := document_id d |} |}.

(** *** Flat JSON objects *)

Inductive Lexeme := LBrace | RBrace | Colon | Comma | Str (s : string) | Word (s : string).
Inductive LexState := Outside | InString (acc : string) | InWord (acc : string).

Definition snoc (s : string) (c : ascii) : string := s +:+ String c EmptyString.

Definition punctuation (c : ascii) : option Lexeme :=
  if Ascii.eqb c "{" then Some LBrace
  else if Ascii.eqb c "}" then Some RBrace
  else if Ascii.eqb c ":" then Some Colon
  else if Ascii.eqb c "," then Some Comma
  else None.

Definition is_space (c : ascii) : bool :=
  Ascii.eqb c " " || Ascii.eqb c "009" || Ascii.eqb c "010" || Ascii.eqb c "013".

Definition is_lower (c : ascii) : bool :=
  (97 <=? nat_of_ascii c)%nat && (nat_of_ascii c <=? 122)%nat.

Fixpoint lex (st : LexState) (s : string) : option (list Lexeme) :=
  match s with
  | EmptyString =>
      match st with
      | Outside => Some []
      | InWord w => Some [Word w]
      | InString _ => None
      end
  | String c rest =>
      match st with
      | InString acc =>
          if Ascii.eqb c "034" then (Str acc ::.) <$> lex Outside rest
          else if Ascii.eqb c "092" then None
          else lex (InString (snoc acc c)) rest
      | _ =>
          let pending := match st with InWord w => [Word w] | _ => [] end in
          if Ascii.eqb c "034" then (pending ++.) <$> lex (InString EmptyString) rest
          else if is_space c then (pending ++.) <$> lex Outside rest
          else match punctuation c with
               | Some l => ((pending ++ [l]) ++.) <$> lex Outside rest
               | None =>
                   if is_lower c then
                     lex (InWord (snoc (match st with InWord w => w | _ => EmptyString end) c)) rest
                   else None
               end
      end
  end.

Definition member_value (l : Lexeme) : option (option string) :=
  match l with
  | Str s => Some (Some s)
  | Word w => if String.eqb w "null" then Some None else None
  | _ => None
  end.

(** The members after the opening brace; of two members of one name the
    later one stays, as with [JSON.parse]. *)
Fixpoint members (ls : list Lexeme) : option (gmap string (option string)) :=
  match ls with
  | Str k :: Colon :: v :: rest =>
      value ← member_value v;
      match rest with
      | [RBrace] => Some {[ k := value ]}
      | Comma :: rest' => m ← members rest'; Some (m ∪ {[ k := value ]})
      | _ => None
      end
  | _ => None
  end.

(** [None] is [null]: the value of the text [null], and what
    [safe_json_parse] gives for a text that does not parse. *)
Definition FlatJson : Type := option (gmap string (option string)).

Definition flat_json_parse (s : string) : FlatJson :=
  match lex Outside s with
  | Some [LBrace; RBrace] => Some ∅
  | Some (LBrace :: ls) => members ls
  | _ => None
  end.

(** [value.name] for a member that is a string. *)
Definition member (value : gmap string (option string)) (name : string) : option string :=
  value !! name ≫= fun v => v.

Definition flat_native_drop (value : FlatJson) : option NativeDrop :=
  match value with
  | Some o =>
      Some {| type := member o "type"; id := member o "id"; pack := member o "pack";
              actorId := member o "actorId"; tokenId := member o "tokenId";
              sceneId := member o "sceneId" |}
  | None => None
  end.

(** A value is taken for a reference when it has a [fallback_lid]. *)
Definition flat_is_ref (value : FlatJson) : option (@RegRef sample_machine_mind) :=
  match value with
  | Some o =>
      match o !! "fallback_lid" with
      | Some lid =>
          Some {| fallback_lid := or_empty lid; ref_id := or_empty (member o "id");
                  ref_type := member o "type" ≫= sample_of_name;
                  reg_name := or_empty (member o "reg_name") |}
      | None => None
      end
  | None => None
  end.

Definition json_string (s : string) : string := quot +:+ s +:+ quot.

Definition flat_stringify (ref : @RegRef sample_machine_mind) : string :=
  "{" +:+ json_string "fallback_lid" +:+ ":" +:+ json_string (fallback_lid ref)
  +:+ "," +:+ json_string "id" +:+ ":" +:+ json_string (ref_id ref)
  +:+ "," +:+ json_string "type" +:+ ":"
  +:+ match ref_type ref with
      | Some t => json_string (sample_name t)
      | None => "null"
      end
  +:+ "," +:+ json_string "reg_name" +:+ ":" +:+ json_string (reg_name ref) +:+ "}".

Definition ref_from_dataset (element : Element) : option (@RegRef sample_machine_mind) :=
  match dataset element !! "id" with
  | Some i =>
      Some {| fallback_lid := or_empty (dataset element !! "fallbackLid"); ref_id := i;
              ref_type := dataset element !! "type" ≫= sample_of_name;
              reg_name := or_empty (dataset element !! "regName") |}
  | None => None
  end.

(** Registry names of the form [src|first|second]. *)
Fixpoint split_bar (acc : string) (s : string) : list string :=
  match s with
  | EmptyString => [acc]
  | String c rest =>
      if Ascii.eqb c "|" then acc :: split_bar EmptyString rest
      else split_bar (snoc acc c) rest
  end.

Definition sample_reg_args (name : string) : RegArgs :=
  let parts := split_bar EmptyString name in
  let source := or_empty (parts !! 0%nat) in
  let first := parts !! 1%nat in
  let second := parts !! 2%nat in
  {| src := source;
     comp_id := if String.eqb source "comp" || String.eqb source "comp_actor" then first else None;
     scene_id := if String.eqb source "scene" || String.eqb source "scene_token" then first else None;
     token_id := if String.eqb source "scene_token" then second else None;
     actor_id := if String.eqb source "game_actor" then first
                 else if String.eqb source "comp_actor" then second else None |}.

Definition sample_is_actor_type (t : SampleEntryType) : bool :=
  match t with Mech | Pilot | Npc => true | _ => false end.

Definition sample_is_item_type (t : SampleEntryType) : bool :=
  match t with Frame | MechWeapon | Skill => true | _ => false end.

(** The registry of the sample resolves world actors and world items, to
    their ids. *)
Definition sample_resolve (g : @Game sample_documents) (ref : @RegRef sample_machine_mind) : option string :=
  match ref_type ref with
  | Some t =>
      if sample_is_actor_type t then actor_document_id <$> actors g !! ref_id ref
      else item_id <$> items g !! ref_id ref
  | None => None
  end.

Definition sample_imports : @Imports sample_machine_mind sample_documents :=
  {| Parsed := FlatJson;
     safe_json_parse := flat_json_parse;
     as_native_drop := flat_native_drop;
     is_ref := flat_is_ref;
     JSON_stringify := flat_stringify;
     recreate_ref_from_element := ref_from_dataset;
     is_item_type := sample_is_item_type;
     is_actor_type := sample_is_actor_type;
     get_pack_id := fun t => "world." +:+ sample_name t;
     parse_reg_args := sample_reg_args;
     FoundryReg_resolve := sample_resolve |}.

(** *** A small world and some payloads *)

(** The JSON text of an object whose members are all strings. *)
Definition json_object (ms : list (string * string)) : string :=
  "{" +:+ String.concat "," ((fun m => json_string m.1 +:+ ":" +:+ json_string m.2) <$> ms) +:+ "}".

Definition rifle : LancerItem := {| item_id := "i1"; item_type := "mech_weapon" |}.
Definition blade : LancerItem := {| item_id := "i2"; item_type := "mech_weapon" |}.
Definition everest : LancerActor :=
  {| actor_document_id := "a1"; actor_type := "mech"; actor_items := {[ "i2" := blade ]} |}.
Definition briefing : JournalEntry := {| journal_id := "j1" |}.

Definition sample_game : @Game sample_documents :=
  {| actors := {[ "a1" := everest ]};
     items := {[ "i1" := rifle ]};
     journals := None;
     scenes :=
       {[ "s1" := {| tokens := {[ "t1" := {| token_actor := Some everest |};
                                  "t2" := {| token_actor := None |} ]} |} ]};
     packs :=
       {[ "world.mech_weapon" := {| documents := {[ "i1" := ItemDocument rifle ]} |};
          "world.journal" := {| documents := {[ "j1" := JournalDocument briefing ]} |} ]} |}.

Definition sample_world : @World sample_documents :=
  {| game := sample_game; console := [] |}.

(** Three drops that name a compendium pack the game does not have. *)
Definition item_from_missing_pack : string :=
  json_object [("type", "Item"); ("pack", "world.no_such_pack"); ("id", "i1")].
Definition actor_from_missing_pack : string :=
  json_object [("type", "Actor"); ("pack", "world.no_such_pack"); ("id", "a1")].
Definition journal_from_missing_pack : string :=
  json_object [("type", "JournalEntry"); ("pack", "world.no_such_pack"); ("id", "j1")].

(** The same item, dragged from the compendium actor of a missing pack. *)
Definition actor_item_from_missing_pack : string :=
  json_object [("type", "Item"); ("pack", "world.no_such_pack"); ("actorId", "a1"); ("id", "i2")].

(** Payloads the function answers with [null]: a text that is no JSON, a
    drop of a type it does not know, a world item that does not exist. *)
Definition not_json : string := "{type: Item".
Definition macro_drop : string := json_object [("type", "Macro"); ("id", "m1")].
Definition unknown_world_item : string := json_object [("type", "Item"); ("id", "i9")].

(** A sheet element that shows the rifle, an element that says nothing
    of a reference, and a drag event with an empty data transfer. *)
Definition rifle_element : Element :=
  {| dataset := {[ "id" := "i1"; "type" := "mech_weapon"; "regName" := "game" ]};
     draggable := false |}.
Definition plain_element : Element := {| dataset := ∅; draggable := false |}.
Definition fresh_event : DomEvent :=
  {| dataTransfer := Some ∅; defaultPrevented := false; propagationStopped := false;
     immediatePropagationStopped := false |}.

(** A reference to the actor of token [t1] of scene [s1], and that world. *)
Definition token_ref : @RegRef sample_machine_mind :=
  {| fallback_lid := EmptyString; ref_id := "t1";
     ref_type := Some (Mech : @EntryType sample_machine_mind); reg_name := "scene|s1" |}.

(** The JSON of a reference to the rifle, and a drop callback that leaves
    the event as it is. *)
Definition rifle_ref_json : string :=
  json_object [("fallback_lid", EmptyString); ("id", "i1"); ("type", "mech_weapon");
               ("reg_name", "game")].
Definition ignore_drop : string → Element → DomEvent → @M sample_documents DomEvent :=
  fun _ _ evt => mret evt.

(** Drops that resolve: the blade carried by the world actor, the actor
    of token [t1], the briefing of the journal pack. *)
Definition blade_of_everest : string :=
  json_object [("type", "Item"); ("actorId", "a1"); ("id", "i2")].
Definition token_actor_drop : string :=
  json_object [("type", "Actor"); ("sceneId", "s1"); ("actorId", "a1"); ("tokenId", "t1");
               ("id", "a1")].
Definition briefing_drop : string :=
  json_object [("type", "JournalEntry"); ("pack", "world.journal"); ("id", "j1")].

(** More of the sample: a drop for the world's rifle, elements with a
    [data-type], an event without a data transfer, callbacks that leave
    the event as it is, and references into the several registries. *)
Definition rifle_drop : string := json_object [("type", "Item"); ("id", "i1")].
Definition weapon_slot : Element :=
  {| dataset := {[ "type" := "mech_weapon" ]}; draggable := false |}.
Definition pilot_slot : Element :=
  {| dataset := {[ "type" := "pilot" ]}; draggable := false |}.
Definition open_slot : Element :=
  {| dataset := {[ "type" := EmptyString ]}; draggable := false |}.
Definition bare_event : DomEvent :=
  {| dataTransfer := None; defaultPrevented := false; propagationStopped := false;
     immediatePropagationStopped := false |}.
Definition keep_event : DroppedEntity → Element → DomEvent → @M sample_documents DomEvent :=
  fun _ _ evt => mret evt.
Definition no_hover : @HoverHandlerFunc sample_documents := fun _ _ _ evt => mret evt.
Definition no_drop : @DropHandlerFunc sample_documents := fun _ _ evt => mret evt.
Definition weapons_only : option (list (@AllowedType sample_machine_mind)) :=
  Some [AllowedEntry (MechWeapon : @EntryType sample_machine_mind)].

Definition sample_ref (t : SampleEntryType) (i name : string) : @RegRef sample_machine_mind :=
  {| fallback_lid := EmptyString; ref_id := i;
     ref_type := Some (t : @EntryType sample_machine_mind); reg_name := name |}.
Definition world_rifle_ref := sample_ref MechWeapon "i1" "game".
Definition compendium_actor_blade_ref := sample_ref MechWeapon "i2" "comp_actor|world.mechs|a1".
Definition token_blade_ref := sample_ref MechWeapon "i2" "scene_token|s1|t1".
Definition core_rifle_ref := sample_ref MechWeapon "i1" "comp_core".

(** References into scene [s1]: to token [t2], which has no actor, and to
    a token the scene does not have. *)
Definition actorless_token_ref := sample_ref Mech "t2" "scene|s1".
Definition missing_token_ref := sample_ref Mech "t9" "scene|s1".

(** A drag event that carries the reference to the rifle. *)
Definition rifle_drag_event : DomEvent :=
  {| dataTransfer := Some {[ "text/plain" := rifle_ref_json ]}; defaultPrevented := false;
     propagationStopped := false; immediatePropagationStopped := false |}.

End Sample.

(* ================================================================== *)
(** * Part II: properties                                              *)
(* ================================================================== *)

(** ** Strings *)

Lemma append_String (c : ascii) (s t : string) :
  String c s +:+ t = String c (s +:+ t).
Proof. reflexivity. Qed.

Lemma append_Empty (t : string) : EmptyString +:+ t = t.
Proof. reflexivity. Qed.

Lemma prefix_spec (p s : string) :
  String.prefix p s = true ↔ ∃ t, s = p +:+ t.
Proof.
  revert s. induction p as [|a p IH]; intros s; simpl.
  - destruct s; split; eauto.
  - destruct s as [|b s]; simpl.
    + split; [discriminate|]. intros [t Ht]. discriminate.
    + destruct (Ascii.ascii_dec a b) as [->|Hab].
      * rewrite IH. split; intros [t Ht]; exists t; rewrite append_String in *; congruence.
      * split; [discriminate|]. intros [t Ht]. rewrite append_String in Ht. congruence.
Qed.

Lemma includes_Empty (sub : string) :
  includes EmptyString sub = String.prefix sub EmptyString.
Proof. unfold includes. by destruct (String.prefix sub EmptyString). Qed.

Lemma includes_String (c : ascii) (s sub : string) :
  includes (String c s) sub = String.prefix sub (String c s) || includes s sub.
Proof. reflexivity. Qed.

Lemma includes_spec (s sub : string) :
  includes s sub = true ↔ ∃ before after, s = before +:+ sub +:+ after.
Proof.
  induction s as [|c s IH].
  - rewrite includes_Empty, prefix_spec. split.
    + intros [t Ht]. by exists EmptyString, t.
    + intros ([|? before] & after & Heq); [|discriminate]. eauto.
  - rewrite includes_String, orb_true_iff, IH, prefix_spec. split.
    + intros [[t Ht]|(before & after & ->)].
      * by exists EmptyString, t.
      * by exists (String c before), after.
    + intros ([|c' before] & after & Heq).
      * left. eauto.
      * right. rewrite append_String in Heq. injection Heq as -> ->. eauto.
Qed.

Lemma includes_empty (sub : string) :
  sub ≠ EmptyString → includes EmptyString sub = false.
Proof. destruct sub; [done|]. reflexivity. Qed.

(** ** The frame of a computation *)

Create HintDb frame.

Section FrameLemmas.
Context {docs : CompendiumDocuments}.

Lemma reads_only_ret {A : Type} (a : A) : reads_only (mret a).
Proof. by intros w. Qed.

Lemma reads_only_throw {A : Type} (e : string) : reads_only (throw (A := A) e).
Proof. by intros w. Qed.

Lemma reads_only_the_game : reads_only the_game.
Proof. by intros w. Qed.

Lemma reads_only_console_write (l : ConsoleLevel) (msg : string) :
  reads_only (console_write l msg).
Proof. by intros w. Qed.

Lemma reads_only_non_null {A : Type} (receiver : option A) : reads_only (non_null receiver).
Proof. by destruct receiver; intros w. Qed.

Lemma reads_only_bind {A B : Type} (m : M A) (k : A → M B) :
  reads_only m → (∀ a, reads_only (k a)) → reads_only (m ≫= k).
Proof.
  intros Hm Hk w. unfold mbind, M_bind, bind. specialize (Hm w).
  destruct (m w) as [[a|e] w']; simpl in *; [|done].
  by rewrite Hk.
Qed.

Lemma host_determined_ret {A : Type} (a : A) : host_determined (mret a).
Proof. by intros w1 w2 Hg. Qed.

Lemma host_determined_throw {A : Type} (e : string) : host_determined (throw (A := A) e).
Proof. by intros w1 w2 Hg. Qed.

Lemma host_determined_the_game : host_determined the_game.
Proof. intros w1 w2 Hg. unfold the_game; simpl. by rewrite Hg. Qed.

Lemma host_determined_console_write (l : ConsoleLevel) (msg : string) :
  host_determined (console_write l msg).
Proof. by intros w1 w2 Hg. Qed.

Lemma host_determined_non_null {A : Type} (receiver : option A) :
  host_determined (non_null receiver).
Proof. by destruct receiver; intros w1 w2 Hg. Qed.

Lemma host_determined_bind {A B : Type} (m : M A) (k : A → M B) :
  host_determined m → (∀ a, host_determined (k a)) → host_determined (m ≫= k).
Proof.
  intros Hm Hk w1 w2 Hg. unfold mbind, M_bind, bind.
  destruct (Hm w1 w2 Hg) as [Hout Hgame].
  destruct (m w1) as [[a1|e1] w1'], (m w2) as [[a2|e2] w2']; simpl in *; try done.
  - injection Hout as ->. by apply Hk.
  - injection Hout as ->. done.
Qed.

End FrameLemmas.

#[global] Hint Resolve reads_only_ret reads_only_throw reads_only_the_game
  reads_only_console_write reads_only_non_null reads_only_bind : frame.
#[global] Hint Resolve host_determined_ret host_determined_throw host_determined_the_game
  host_determined_console_write host_determined_non_null host_determined_bind : frame.

(** Splits a computation along its conditionals and matches, down to the
    primitive steps, which the [frame] database knows. *)
Ltac frame_step :=
  match goal with
  | |- reads_only (if ?b then _ else _) => destruct b
  | |- host_determined (if ?b then _ else _) => destruct b
  | |- reads_only (match ?x with _ => _ end) => destruct x
  | |- host_determined (match ?x with _ => _ end) => destruct x
  | |- reads_only (_ ≫= _) => apply reads_only_bind; [|intros ?]
  | |- host_determined (_ ≫= _) => apply host_determined_bind; [|intros ?]
  | |- _ => solve [auto with frame]
  end.

Section ResolveFrame.
Context {mm : MachineMind} {docs : CompendiumDocuments} {imports : Imports}.

Lemma reads_only_getDocument (p : Pack) (document_id : option string) :
  reads_only (getDocument p document_id).
Proof. apply reads_only_ret. Qed.

Lemma host_determined_getDocument (p : Pack) (document_id : option string) :
  host_determined (getDocument p document_id).
Proof. apply host_determined_ret. Qed.

Hint Resolve reads_only_getDocument host_determined_getDocument : frame.

Lemma reads_only_resolve_item (g : Game) (drop : NativeDrop) : reads_only (resolve_item g drop).
Proof. unfold resolve_item. repeat frame_step. Qed.

Lemma reads_only_resolve_actor (g : Game) (drop : NativeDrop) : reads_only (resolve_actor g drop).
Proof. unfold resolve_actor. repeat frame_step. Qed.

Lemma reads_only_resolve_journal (g : Game) (drop : NativeDrop) :
  reads_only (resolve_journal g drop).
Proof. unfold resolve_journal. repeat frame_step. Qed.

Lemma host_determined_resolve_item (g : Game) (drop : NativeDrop) :
  host_determined (resolve_item g drop).
Proof. unfold resolve_item. repeat frame_step. Qed.

Lemma host_determined_resolve_actor (g : Game) (drop : NativeDrop) :
  host_determined (resolve_actor g drop).
Proof. unfold resolve_actor. repeat frame_step. Qed.

Lemma host_determined_resolve_journal (g : Game) (drop : NativeDrop) :
  host_determined (resolve_journal g drop).
Proof. unfold resolve_journal. repeat frame_step. Qed.

Hint Resolve reads_only_resolve_item reads_only_resolve_actor reads_only_resolve_journal
  host_determined_resolve_item host_determined_resolve_actor
  host_determined_resolve_journal : frame.

Lemma reads_only_resolve_native_drop (event_data : string) :
  reads_only (resolve_native_drop event_data).
Proof. unfold resolve_native_drop. repeat frame_step. Qed.

Lemma host_determined_resolve_native_drop (event_data : string) :
  host_determined (resolve_native_drop event_data).
Proof. unfold resolve_native_drop. repeat frame_step. Qed.

(** C5. Whatever the payload and whatever the state of the host,
    [resolve_native_drop] only reads the host's collections: the game it
    leaves, with its actors, items, journals, scenes and packs and every
    document in them, is the game it started from (also when the call
    throws). *)
Theorem resolve_native_drop_leaves_game (event_data : string) (w : World) :
  game (resolve_native_drop event_data w).2 = game w.
Proof. apply reads_only_resolve_native_drop. Qed.

(** C6. [resolve_native_drop] keeps nothing between calls. Its outcome is
    the same in two worlds that agree on the host's collections, whatever
    else differs (here: what the console holds); and calling it again with
    the same payload, in the world the first call left, gives the outcome
    of the first call. *)
Theorem resolve_native_drop_no_hidden_state (event_data : string) (g : Game)
    (console1 console2 : list ConsoleEntry) :
  let w1 := {| game := g; console := console1 |} in
  let w2 := {| game := g; console := console2 |} in
  (resolve_native_drop event_data w1).1 = (resolve_native_drop event_data w2).1
  ∧ (resolve_native_drop event_data (resolve_native_drop event_data w1).2).1
    = (resolve_native_drop event_data w1).1.
Proof.
  intros w1 w2. split.
  - by apply host_determined_resolve_native_drop.
  - apply host_determined_resolve_native_drop, reads_only_resolve_native_drop.
Qed.

End ResolveFrame.

(** ** Which location a drop is resolved from *)

Section Dispatch.
Context {mm : MachineMind} {docs : CompendiumDocuments} {imports : Imports}.

Lemma resolve_item_outcome (g : Game) (drop : NativeDrop) (w : World) :
  resolve_item g drop w = (item_location g drop, w).
Proof.
  unfold resolve_item, item_location.
  destruct (truthy (pack drop)), (truthy (actorId drop)),
    (truthy (sceneId drop)), (truthy (tokenId drop)); simpl;
    try reflexivity.
  all: try (destruct (get (packs g) (pack drop)) as [p|]; simpl; [|reflexivity];
            unfold mbind, M_bind, bind, getDocument; simpl;
            by destruct (get (documents p) _)).
  all: by destruct (get (scenes g) (sceneId drop)) as [sc|]; simpl;
         [destruct (get (tokens sc) (tokenId drop)) as [tk|]; simpl;
            [destruct (token_actor tk)|]|].
Qed.

Lemma resolve_actor_outcome (g : Game) (drop : NativeDrop) (w : World) :
  resolve_actor g drop w = (actor_location g drop, w).
Proof.
  unfold resolve_actor, actor_location.
  destruct (truthy (pack drop)); [|by destruct (truthy (sceneId drop) && truthy (actorId drop))].
  by destruct (get (packs g) (pack drop)).
Qed.

Lemma resolve_journal_outcome (g : Game) (drop : NativeDrop) (w : World) :
  resolve_journal g drop w = (journal_location g drop, w).
Proof.
  unfold resolve_journal, journal_location.
  destruct (truthy (pack drop)); [|by destruct (journals g)].
  by destruct (get (packs g) (pack drop)).
Qed.

Lemma resolve_native_drop_tagged {A : Type} (tag : A → ResolvedNativeDrop)
    (lookup : M (option A)) (found : Outcome (option A)) (w : World) :
  lookup w = (found, w) →
  ((resolved ← (entity ← lookup; mret (tag <$> entity));
    match resolved with
    | Some r => mret (Some r)
    | None => console_write ConsoleLog "Couldn't resolve native drop:";; mret None
    end) w).1 = tagged tag found.
Proof.
  intros Hlookup. unfold mbind, M_bind, bind. rewrite Hlookup.
  by destruct found as [[entity|]|e].
Qed.

(** X1. A payload that parses to a drop of type ["Item"] is resolved from
    one location, the first that applies of: the compendium actor's item
    (pack and actorId set), the token actor's item (sceneId and tokenId
    set), the world actor's item (actorId set), the pack's document (pack
    set), the world item. The item found is returned tagged ["Item"],
    nothing found gives [null], and a missing pack in the fourth case
    throws. *)
Theorem resolve_item_drop_dispatch (event_data : string) (drop : NativeDrop) (w : World) :
  as_native_drop (safe_json_parse event_data) = Some drop →
  type drop = Some "Item" →
  (resolve_native_drop event_data w).1 = tagged ResolvedItem (item_location (game w) drop).
Proof.
  intros Hparse Htype. unfold resolve_native_drop. rewrite Hparse, Htype.
  change (loose_eq (Some "Item") "Item") with true. cbv iota.
  change ((the_game ≫= ?k) w) with (k (game w) w).
  apply resolve_native_drop_tagged, resolve_item_outcome.
Qed.

(** X2. A payload that parses to a drop of type ["Actor"] is resolved
    from the pack's document when pack is set, else from the token
    [tokenId] of scene [sceneId] when sceneId and actorId are set, else
    from the world actors; the actor found is returned tagged ["Actor"],
    nothing found gives [null], and a missing pack throws. *)
Theorem resolve_actor_drop_dispatch (event_data : string) (drop : NativeDrop) (w : World) :
  as_native_drop (safe_json_parse event_data) = Some drop →
  type drop = Some "Actor" →
  (resolve_native_drop event_data w).1 = tagged ResolvedActor (actor_location (game w) drop).
Proof.
  intros Hparse Htype. unfold resolve_native_drop. rewrite Hparse, Htype.
  change (loose_eq (Some "Actor") "Item") with false.
  change (loose_eq (Some "Actor") "Actor") with true. cbv iota.
  change ((the_game ≫= ?k) w) with (k (game w) w).
  apply resolve_native_drop_tagged, resolve_actor_outcome.
Qed.

(** X3. A payload that parses to a drop of type ["JournalEntry"] is
    resolved from the pack's document when pack is set and from
    [game.journals] otherwise. The entry found is returned tagged
    ["JournalEntry"] and nothing found gives [null]; a pack the game does
    not have makes the call throw, and so does a host on which
    [game.journals] is not defined. *)
Theorem resolve_journal_drop_dispatch (event_data : string) (drop : NativeDrop) (w : World) :
  as_native_drop (safe_json_parse event_data) = Some drop →
  type drop = Some "JournalEntry" →
  (resolve_native_drop event_data w).1
  = tagged ResolvedJournalEntry (journal_location (game w) drop).
Proof.
  intros Hparse Htype. unfold resolve_native_drop. rewrite Hparse, Htype.
  change (loose_eq (Some "JournalEntry") "Item") with false.
  change (loose_eq (Some "JournalEntry") "Actor") with false.
  change (loose_eq (Some "JournalEntry") "JournalEntry") with true. cbv iota.
  change ((the_game ≫= ?k) w) with (k (game w) w).
  apply resolve_native_drop_tagged, resolve_journal_outcome.
Qed.

End Dispatch.

Section DispatchExamples.
Import Sample.
Existing Instances sample_machine_mind sample_documents sample_imports.

(** X1 at the blade of the world actor [a1]. *)
Lemma resolve_item_drop_dispatch_blade :
  (resolve_native_drop blade_of_everest sample_world).1 = Returned (Some (ResolvedItem blade)).
Proof.
  exact (resolve_item_drop_dispatch blade_of_everest
           {| type := Some "Item"; id := Some "i2"; pack := None; actorId := Some "a1";
              tokenId := None; sceneId := None |}
           sample_world eq_refl eq_refl).
Defined.

(** X2 at the actor of token [t1] of scene [s1]. *)
Lemma resolve_actor_drop_dispatch_token :
  (resolve_native_drop token_actor_drop sample_world).1
  = Returned (Some (ResolvedActor everest)).
Proof.
  exact (resolve_actor_drop_dispatch token_actor_drop
           {| type := Some "Actor"; id := Some "a1"; pack := None; actorId := Some "a1";
              tokenId := Some "t1"; sceneId := Some "s1" |}
           sample_world eq_refl eq_refl).
Defined.

(** X3 at the briefing of the journal pack. *)
Lemma resolve_journal_drop_dispatch_briefing :
  (resolve_native_drop briefing_drop sample_world).1
  = Returned (Some (ResolvedJournalEntry briefing)).
Proof.
  exact (resolve_journal_drop_dispatch briefing_drop
           {| type := Some "JournalEntry"; id := Some "j1"; pack := Some "world.journal";
              actorId := None; tokenId := None; sceneId := None |}
           sample_world eq_refl eq_refl).
Defined.

End DispatchExamples.

(** ** A compendium pack the game does not have

    Lines 261, 281 and 304 call [getDocument] on [game.packs.get(drop.pack)!]:
    the [!] is erased at compile time, and when the game has no pack of
    that name the call is made on [undefined]. Line 247, the first case
    of the item branch, guards the same lookup with [?.]. *)

Section MissingPack.
Context {mm : MachineMind} {docs : CompendiumDocuments} {imports : Imports}.

Lemma resolve_item_missing_pack (g : Game) (drop : NativeDrop) (w : World) :
  truthy (pack drop) = true → truthy (actorId drop) = false →
  truthy (sceneId drop) && truthy (tokenId drop) = false →
  get (packs g) (pack drop) = None →
  (resolve_item g drop w).1 = Thrown "TypeError: Cannot read properties of undefined".
Proof.
  intros Hpack Hactor Htoken Hget. unfold resolve_item.
  rewrite Hpack, Hactor, Htoken, Hget. reflexivity.
Qed.

Lemma resolve_item_compendium_actor_missing_pack (g : Game) (drop : NativeDrop) (w : World) :
  truthy (pack drop) = true → truthy (actorId drop) = true →
  get (packs g) (pack drop) = None →
  (resolve_item g drop w).1 = Returned None.
Proof.
  intros Hpack Hactor Hget. unfold resolve_item.
  rewrite Hpack, Hactor, Hget. reflexivity.
Qed.

Lemma resolve_actor_missing_pack (g : Game) (drop : NativeDrop) (w : World) :
  truthy (pack drop) = true → get (packs g) (pack drop) = None →
  (resolve_actor g drop w).1 = Thrown "TypeError: Cannot read properties of undefined".
Proof. intros Hpack Hget. unfold resolve_actor. rewrite Hpack, Hget. reflexivity. Qed.

Lemma resolve_journal_missing_pack (g : Game) (drop : NativeDrop) (w : World) :
  truthy (pack drop) = true → get (packs g) (pack drop) = None →
  (resolve_journal g drop w).1 = Thrown "TypeError: Cannot read properties of undefined".
Proof. intros Hpack Hget. unfold resolve_journal. rewrite Hpack, Hget. reflexivity. Qed.

End MissingPack.

Section MissingPackExamples.
Import Sample.
Existing Instances sample_machine_mind sample_documents sample_imports.

(** C1. An item drop that names a pack (and no actor, scene or token) is
    looked up in that pack. When the game has no such pack the lookup
    yields no item, and the call throws a [TypeError] instead of returning
    [null]; the same drop with an [actorId], the first case, does return
    [null]. *)
Theorem resolve_item_drop_from_missing_pack :
  (resolve_native_drop item_from_missing_pack sample_world).1
    = Thrown "TypeError: Cannot read properties of undefined"
  ∧ (resolve_native_drop actor_item_from_missing_pack sample_world).1 = Returned None.
Proof. split; vm_compute; reflexivity. Qed.

(** C2. An actor drop that names a pack is looked up in that pack; when
    the game has no such pack the call throws a [TypeError] instead of
    returning [null]. *)
Theorem resolve_actor_drop_from_missing_pack :
  (resolve_native_drop actor_from_missing_pack sample_world).1
    = Thrown "TypeError: Cannot read properties of undefined".
Proof. vm_compute; reflexivity. Qed.

(** C3. [null] is what the function answers to a text that does not
    parse, to a drop of an unknown type and to an id its collection does
    not hold; but it is not its only failure: a drop that names a pack
    the game does not have makes it throw, and the console is not told. *)
Theorem resolve_native_drop_failures :
  (resolve_native_drop not_json sample_world).1 = Returned None
  ∧ (resolve_native_drop macro_drop sample_world).1 = Returned None
  ∧ (resolve_native_drop unknown_world_item sample_world).1 = Returned None
  ∧ resolve_native_drop item_from_missing_pack sample_world
    = (Thrown "TypeError: Cannot read properties of undefined", sample_world).
Proof. repeat split; vm_compute; reflexivity. Qed.

(** C4. A journal drop that names a pack is looked up in that pack; when
    the game has no such pack the call throws a [TypeError] instead of
    returning [null]. *)
Theorem resolve_journal_drop_from_missing_pack :
  (resolve_native_drop journal_from_missing_pack sample_world).1
    = Thrown "TypeError: Cannot read properties of undefined".
Proof. vm_compute; reflexivity. Qed.

End MissingPackExamples.

(** ** Dragging a reference *)

Section SimpleRefDragging.
Context {mm : MachineMind} {docs : CompendiumDocuments} {imports : Imports}.

(** C7. For every element that [enable_simple_ref_dragging] wires, the
    start of a drag puts under ["text/plain"] in the event's data transfer
    exactly [JSON.stringify] of the reference rebuilt from that element,
    and the empty string when no reference can be rebuilt from it; the
    event so filled, with its propagation stopped, is what the start
    callback, if any, then receives. The element is one of those given,
    made draggable, with the data attributes it had. *)
Theorem simple_ref_drag_payload (items : list Element) (start_stop : option DragStartEndFunc)
    (b : DragBindings) (event : DomEvent) (dt : gmap string string) :
  b ∈ enable_simple_ref_dragging items start_stop →
  dataTransfer event = Some dt →
  let payload :=
    match recreate_ref_from_element (drag_source b) with
    | Some ref => JSON_stringify ref
    | None => EmptyString
    end in
  (∃ item, item ∈ items ∧ drag_source b = make_draggable item
           ∧ dataset (drag_source b) = dataset item)
  ∧ ∃ event',
      dataTransfer event' = Some (<["text/plain" := payload]> dt)
      ∧ on_dragstart b event
        = match start_stop with
          | Some callback => callback Start (drag_source b) event'
          | None => mret event'
          end.
Proof.
  intros Hb Hdt payload.
  unfold enable_simple_ref_dragging, enable_dragging in Hb.
  apply list_elem_of_fmap in Hb as (item' & -> & Hitem').
  apply list_elem_of_fmap in Hitem' as (item & -> & Hitem).
  split; [by exists item|]. simpl.
  exists (stopImmediatePropagation (stopPropagation
            (setData "text/plain" (simple_ref_drag_data (make_draggable item) event) event dt))).
  split; [reflexivity|].
  unfold dragstart_handler. rewrite Hdt. reflexivity.
Qed.

End SimpleRefDragging.

Section SimpleRefDraggingExample.
Import Sample.
Existing Instances sample_machine_mind sample_documents sample_imports.

(** C7 at the rifle's element and an empty data transfer: the payload is
    the JSON of the rifle's reference. *)
Lemma simple_ref_drag_payload_rifle :
  (∃ item, item ∈ [rifle_element]
     ∧ make_draggable rifle_element = make_draggable item
     ∧ dataset (make_draggable rifle_element) = dataset item)
  ∧ ∃ event',
      dataTransfer event'
        = Some (<["text/plain" :=
                   flat_stringify
                     {| fallback_lid := EmptyString; ref_id := "i1";
                        ref_type := Some MechWeapon; reg_name := "game" |}]> ∅)
      ∧ dragstart_handler simple_ref_drag_data None (make_draggable rifle_element) fresh_event
        = mret event'.
Proof.
  assert (rifle_wired :
            {| drag_source := make_draggable rifle_element;
               on_dragstart :=
                 dragstart_handler simple_ref_drag_data None (make_draggable rifle_element);
               on_dragend := dragend_handler None (make_draggable rifle_element) |}
            ∈ enable_simple_ref_dragging [rifle_element] None)
    by (apply list_elem_of_singleton; reflexivity).
  exact (simple_ref_drag_payload [rifle_element] None _ fresh_event ∅ rifle_wired eq_refl).
Defined.

End SimpleRefDraggingExample.

(** ** The effect helpers *)

Lemma append_nil_r (s : string) : s +:+ EmptyString = s.
Proof. induction s as [|c s IH]; [done|]. by rewrite append_String, IH. Qed.

Lemma append_assoc (s t u : string) : (s +:+ t) +:+ u = s +:+ t +:+ u.
Proof. induction s as [|c s IH]; [done|]. by rewrite !append_String, IH. Qed.

(** [join("")] puts the strings one after the other. *)
Lemma join_empty (array : list string) : join EmptyString array = concatenation array.
Proof.
  induction array as [|x [|y array] IH]; [done| |].
  - simpl. by rewrite append_nil_r.
  - change (join EmptyString (x :: y :: array))
      with (x +:+ EmptyString +:+ join EmptyString (y :: array)).
    by rewrite IH.
Qed.

(** The loop that pushes one string per element builds the list of those
    strings, in order. *)
Lemma push_each {A : Type} (f : A → string) (l : list A) (pushed : list string) :
  fold_left (fun categories cat => (categories ++ [f cat])%list) l pushed
  = (pushed ++ (f <$> l))%list.
Proof.
  revert pushed. induction l as [|a l IH]; intros pushed; simpl.
  - by rewrite app_nil_r.
  - rewrite IH, <- app_assoc. reflexivity.
Qed.

Lemma effect_view_includes_uuid (effect : LancerActiveEffect) :
  includes (effect_view effect) (uuid effect) = true.
Proof. apply includes_spec. unfold effect_view. eauto. Qed.

Lemma effect_view_includes_label (effect : LancerActiveEffect) :
  includes (effect_view effect) (label effect) = true.
Proof.
  apply includes_spec. unfold effect_view.
  exists (effect_open +:+ uuid effect +:+ effect_middle), effect_close.
  by rewrite !append_assoc.
Qed.

(** C8. For every list of categories the view is the opening of the list,
    then one card per category in the order given (a category without
    effects has its card too), then the closing; the card of a category
    is its label inside the card's header followed by the views of its
    effects, one after the other in order; and the view of an effect
    contains the effect's uuid and its label. *)
Theorem effect_categories_view_cards (categories : list EffectCategory) :
  (∃ cards,
     effect_categories_view categories = view_open +:+ concatenation cards +:+ view_close
     ∧ Forall2
         (fun cat card =>
            card = card_open +:+ category_label cat +:+ card_middle
                   +:+ concatenation (effect_view <$> effects cat) +:+ card_close)
         categories cards)
  ∧ ∀ effect, includes (effect_view effect) (uuid effect) = true
              ∧ includes (effect_view effect) (label effect) = true.
Proof.
  split.
  - exists (category_card <$> categories). split.
    + unfold effect_categories_view. by rewrite push_each, join_empty.
    + induction categories as [|cat categories IH]; constructor; [|done].
      unfold category_card. by rewrite join_empty.
  - intros effect. split.
    + apply effect_view_includes_uuid.
    + apply effect_view_includes_label.
Qed.

(** ** From a reference to a native drop *)

Section ConvertRefExample.
Import Sample.
Existing Instances sample_machine_mind sample_documents sample_imports.

(** C9. A reference of an actor type into the registry of a scene
    converts to a drop whose id is that of the actor of the token it
    names, and to a drop without id when the scene has no such token; but
    when the token is there and has no actor the conversion throws a
    [TypeError] instead of returning a drop: the chain that reads the id
    guards the scene and the token and not the actor. *)
Theorem convert_ref_of_token_without_actor :
  (convert_ref_to_native_drop token_ref sample_world).1
  = Returned (Some {| type := Some "Actor"; id := Some "a1"; pack := None; actorId := None;
                      tokenId := Some "t1"; sceneId := Some "s1" |})
  ∧ (convert_ref_to_native_drop missing_token_ref sample_world).1
    = Returned (Some {| type := Some "Actor"; id := None; pack := None; actorId := None;
                        tokenId := Some "t9"; sceneId := Some "s1" |})
  ∧ convert_ref_to_native_drop actorless_token_ref sample_world
    = (Thrown "TypeError: Cannot read properties of null", sample_world).
Proof. repeat split; vm_compute; reflexivity. Qed.

End ConvertRefExample.

(** ** Dropping a reference *)

Section SimpleRefDropping.
Context {mm : MachineMind} {docs : CompendiumDocuments} {imports : Imports}.

Lemma type_text_nonempty (ref : RegRef) :
  (∀ t, entry_type_name t ≠ EmptyString) → type_text ref ≠ EmptyString.
Proof. intros Hname. unfold type_text. destruct (ref_type ref); [apply Hname|done]. Qed.

Lemma simple_ref_allow_drop_iff (data : string) (dest : Element) (event : DomEvent) :
  (∀ t, entry_type_name t ≠ EmptyString) →
  simple_ref_allow_drop data dest event = true ↔
    ∃ ref dest_type before after,
      is_ref (safe_json_parse data) = Some ref
      ∧ dataset dest !! "type" = Some dest_type
      ∧ dest_type = before +:+ type_text ref +:+ after.
Proof.
  intros Hname. unfold simple_ref_allow_drop.
  destruct (is_ref (safe_json_parse data)) as [ref|].
  - destruct (dataset dest !! "type") as [dest_type|]; unfold or_empty.
    + rewrite includes_spec. split.
      * intros (before & after & ->). by eexists ref, _, before, after.
      * intros (? & ? & before & after & [= <-] & [= <-] & ->). eauto.
    + rewrite includes_empty by by apply type_text_nonempty.
      split; [done|]. by intros (? & ? & ? & ? & _ & ? & _).
  - split; [done|]. by intros (? & ? & ? & ? & ? & _).
Qed.

(** C10. Entry types being non-empty strings: the predicate that
    [enable_simple_ref_dropping] installs on every element, and that its
    drag-over, drag-enter and drag-leave handlers ask, is true exactly
    when the payload parses to a reference and the element has a
    [data-type] attribute whose string contains the type of the reference.
    So it is false on an element without that attribute; the drop handler
    installed beside it still takes a reference dropped there: it stops
    the propagation of the event, resolves the reference and hands the
    entry to the drop callback. *)
Theorem simple_ref_allow_drop_spec (items : list Element)
    (on_drop : RegEntry → Element → DomEvent → M DomEvent)
    (hover_handler : option HoverHandlerFunc) (b : DropBindings)
    (data : string) (dest : Element) (event : DomEvent) :
  (∀ t, entry_type_name t ≠ EmptyString) →
  b ∈ enable_simple_ref_dropping items on_drop hover_handler →
  (allow_drop_predicate b = Some simple_ref_allow_drop
   ∧ on_dragover b = dragover_handler (Some simple_ref_allow_drop) (drop_target b)
   ∧ on_dragenter b = dragenter_handler (Some simple_ref_allow_drop) hover_handler (drop_target b)
   ∧ on_drop_event b = drop_event_handler (simple_ref_drop_handler on_drop) (drop_target b))
  ∧ (simple_ref_allow_drop data dest event = true ↔
       ∃ ref dest_type before after,
         is_ref (safe_json_parse data) = Some ref
         ∧ dataset dest !! "type" = Some dest_type
         ∧ dest_type = before +:+ type_text ref +:+ after)
  ∧ (dataset dest !! "type" = None → simple_ref_allow_drop data dest event = false)
  ∧ (∀ ref, dataset dest !! "type" = None → is_ref (safe_json_parse data) = Some ref →
       simple_ref_drop_handler on_drop data dest event
       = (resolved ← resolve ref;
          match resolved with
          | Some entry => on_drop entry dest (stopPropagation event)
          | None =>
              console_write ConsoleError "Failed to resolve ref";;
              mret (stopPropagation event)
          end)).
Proof.
  intros Hname Hb. split; [|split; [|split]].
  - unfold enable_simple_ref_dropping, enable_dropping in Hb.
    by apply list_elem_of_fmap in Hb as (item & -> & _).
  - by apply simple_ref_allow_drop_iff.
  - intros Hnone. apply not_true_is_false. intros Hallow.
    apply simple_ref_allow_drop_iff in Hallow as (? & ? & ? & ? & _ & ? & _); congruence.
  - intros ref Hnone Href. unfold simple_ref_drop_handler. by rewrite Href, Hnone.
Qed.

End SimpleRefDropping.

Section SimpleRefDroppingExample.
Import Sample.
Existing Instances sample_machine_mind sample_documents sample_imports.

(** C10 at an element without a [data-type] and the reference to the
    rifle: the predicate refuses the drop, the handler takes it. *)
Lemma simple_ref_allow_drop_plain_element :
  (allow_drop_predicate
     {| drop_target := plain_element;
        allow_drop_predicate := Some simple_ref_allow_drop;
        on_dragover := dragover_handler (Some simple_ref_allow_drop) plain_element;
        on_dragenter := dragenter_handler (Some simple_ref_allow_drop) None plain_element;
        on_dragleave := None;
        on_drop_event :=
          drop_event_handler (simple_ref_drop_handler ignore_drop) plain_element |}
   = Some simple_ref_allow_drop
   ∧ dragover_handler (Some simple_ref_allow_drop) plain_element
     = dragover_handler (Some simple_ref_allow_drop) plain_element
   ∧ dragenter_handler (Some simple_ref_allow_drop) None plain_element
     = dragenter_handler (Some simple_ref_allow_drop) None plain_element
   ∧ drop_event_handler (simple_ref_drop_handler ignore_drop) plain_element
     = drop_event_handler (simple_ref_drop_handler ignore_drop) plain_element)
  ∧ (simple_ref_allow_drop rifle_ref_json plain_element fresh_event = true ↔
       ∃ ref dest_type before after,
         flat_is_ref (flat_json_parse rifle_ref_json) = Some ref
         ∧ dataset plain_element !! "type" = Some dest_type
         ∧ dest_type = before +:+ type_text ref +:+ after)
  ∧ (dataset plain_element !! "type" = None →
       simple_ref_allow_drop rifle_ref_json plain_element fresh_event = false)
  ∧ (∀ ref, dataset plain_element !! "type" = None →
       flat_is_ref (flat_json_parse rifle_ref_json) = Some ref →
       simple_ref_drop_handler ignore_drop rifle_ref_json plain_element fresh_event
       = (resolved ← resolve ref;
          match resolved with
          | Some entry => ignore_drop entry plain_element (stopPropagation fresh_event)
          | None =>
              console_write ConsoleError "Failed to resolve ref";;
              mret (stopPropagation fresh_event)
          end)).
Proof.
  assert (names : ∀ t, sample_name t ≠ EmptyString) by (intros []; discriminate).
  assert (wired :
            {| drop_target := plain_element;
               allow_drop_predicate := Some simple_ref_allow_drop;
               on_dragover := dragover_handler (Some simple_ref_allow_drop) plain_element;
               on_dragenter := dragenter_handler (Some simple_ref_allow_drop) None plain_element;
               on_dragleave := None;
               on_drop_event :=
                 drop_event_handler (simple_ref_drop_handler ignore_drop) plain_element |}
            ∈ enable_simple_ref_dropping [plain_element] ignore_drop None)
    by (apply list_elem_of_singleton; reflexivity).
  exact (simple_ref_allow_drop_spec [plain_element] ignore_drop None _
           rifle_ref_json plain_element fresh_event names wired).
Defined.

End SimpleRefDroppingExample.

(** ** The run of [resolve_native_drop] *)

Section ResolveRun.
Context {mm : MachineMind} {docs : CompendiumDocuments} {imports : Imports}.

Lemma resolve_native_drop_unparsed (event_data : string) (w : World) :
  as_native_drop (safe_json_parse event_data) = None →
  resolve_native_drop event_data w = (Returned None, w).
Proof. intros Hparse. unfold resolve_native_drop. by rewrite Hparse. Qed.

Lemma resolve_branch_run {A : Type} (tag : A → ResolvedNativeDrop)
    (lookup : M (option A)) (found : Outcome (option A)) (w : World) :
  lookup w = (found, w) →
  (resolved ← (e ← lookup; mret (tag <$> e));
   match resolved with
   | Some r => mret (Some r)
   | None => console_write ConsoleLog "Couldn't resolve native drop:";; mret None
   end) w
  = (tagged tag found,
     match tagged tag found with
     | Returned None => with_console_entry w ConsoleLog "Couldn't resolve native drop:"
     | _ => w
     end).
Proof.
  intros Hlookup. unfold mbind, M_bind, bind. rewrite Hlookup.
  by destruct found as [[e|]|e].
Qed.

(** The whole run on a payload that parses: the outcome is the drop's
    location, and the console gets its line exactly when that is [null]. *)
Lemma resolve_native_drop_run (event_data : string) (drop : NativeDrop) (w : World) :
  as_native_drop (safe_json_parse event_data) = Some drop →
  resolve_native_drop event_data w
  = (drop_location (game w) drop,
     match drop_location (game w) drop with
     | Returned None => with_console_entry w ConsoleLog "Couldn't resolve native drop:"
     | _ => w
     end).
Proof.
  intros Hparse. unfold resolve_native_drop, drop_location. rewrite Hparse.
  change ((the_game ≫= ?k) w) with (k (game w) w).
  destruct (loose_eq (type drop) "Item");
    [apply resolve_branch_run, resolve_item_outcome|].
  destruct (loose_eq (type drop) "Actor");
    [apply resolve_branch_run, resolve_actor_outcome|].
  destruct (loose_eq (type drop) "JournalEntry");
    [apply resolve_branch_run, resolve_journal_outcome|].
  reflexivity.
Qed.

(** X5. The console is written to in one case only: the payload parsed
    to a drop and the function returns [null]; then exactly the line
    "Couldn't resolve native drop:" is added. A payload that does not
    parse, a drop that resolves and a call that throws leave the whole
    world as it was. *)
Theorem resolve_native_drop_console (event_data : string) (w : World) :
  (resolve_native_drop event_data w).2
  = match as_native_drop (safe_json_parse event_data), (resolve_native_drop event_data w).1 with
    | Some _, Returned None => with_console_entry w ConsoleLog "Couldn't resolve native drop:"
    | _, _ => w
    end.
Proof.
  destruct (as_native_drop (safe_json_parse event_data)) as [drop|] eqn:Hparse.
  - rewrite (resolve_native_drop_run _ _ _ Hparse). simpl.
    by destruct (drop_location (game w) drop) as [[r|]|e].
  - by rewrite (resolve_native_drop_unparsed _ _ Hparse).
Qed.

End ResolveRun.

(** ** Native drops on a sheet *)

Lemma includes_app_l (a b sub : string) :
  includes a sub = true → includes (a +:+ b) sub = true.
Proof.
  rewrite !includes_spec. intros (before & after & ->).
  exists before, (after +:+ b). by rewrite !append_assoc.
Qed.

Lemma includes_app_r (a b sub : string) :
  includes b sub = true → includes (a +:+ b) sub = true.
Proof.
  rewrite !includes_spec. intros (before & after & ->).
  exists (a +:+ before), after. by rewrite !append_assoc.
Qed.

(** A string found in one element is found in the joined array. *)
Lemma includes_join (separator : string) (array : list string) (x sub : string) :
  x ∈ array → includes x sub = true → includes (join separator array) sub = true.
Proof.
  intros Hx Hsub. induction array as [|y [|z array] IH].
  - by apply elem_of_nil in Hx.
  - apply list_elem_of_singleton in Hx as ->. done.
  - change (join separator (y :: z :: array))
      with (y +:+ separator +:+ join separator (z :: array)).
    apply elem_of_cons in Hx as [->|Hx].
    + by apply includes_app_l.
    + apply includes_app_r, includes_app_r. by apply IH.
Qed.

Section NativeDroppingProperties.
Context {mm : MachineMind} {docs : CompendiumDocuments} {imports : Imports}.

Lemma native_drop_handler_run (on_drop : DroppedEntity → Element → DomEvent → M DomEvent)
    (allowed_types : option (list AllowedType)) (drop_json : string) (dest : Element)
    (evt : DomEvent) (w : World) :
  native_drop_handler on_drop allowed_types drop_json dest evt w
  = match resolve_native_drop drop_json w with
    | (Thrown e, w') => (Thrown e, w')
    | (Returned None, w') => (Returned evt, w')
    | (Returned (Some resolved), w') =>
        if negb (truthy (Some (native_dest_type dest allowed_types)))
           || includes (native_dest_type dest allowed_types) (resolved_type resolved)
        then on_drop (entity resolved) dest (stopPropagation evt) w'
        else (Returned (stopPropagation evt), w')
    end.
Proof.
  unfold native_drop_handler, mbind, M_bind, bind.
  destruct (resolve_native_drop drop_json w) as [[[resolved|]|e] w']; [|done..].
  by destruct (negb _ || _).
Qed.

(** X6. On an element that has a [data-type] attribute the list of
    allowed types plays no part: the handler behaves the same whatever
    list it was given. If the attribute is the empty string, every drop
    that resolves is handed to the callback, with the propagation of the
    event stopped. *)
Theorem native_drop_data_type_precedence
    (on_drop : DroppedEntity → Element → DomEvent → M DomEvent)
    (allowed1 allowed2 : option (list AllowedType)) (drop_json : string) (dest : Element)
    (evt : DomEvent) (dest_type : string) :
  dataset dest !! "type" = Some dest_type →
  native_drop_handler on_drop allowed1 drop_json dest evt
  = native_drop_handler on_drop allowed2 drop_json dest evt
  ∧ (dest_type = EmptyString →
     ∀ w resolved w', resolve_native_drop drop_json w = (Returned (Some resolved), w') →
       native_drop_handler on_drop allowed1 drop_json dest evt w
       = on_drop (entity resolved) dest (stopPropagation evt) w').
Proof.
  intros Htype. split.
  - unfold native_drop_handler, native_dest_type. by rewrite Htype.
  - intros -> w resolved w' Hresolved.
    rewrite native_drop_handler_run, Hresolved. unfold native_dest_type. by rewrite Htype.
Qed.

(** X7. On an element without a [data-type] attribute a drop that
    resolves is handed to the callback, with the propagation of the event
    stopped, when no list of allowed types was given, when the list is
    empty, and when the name of some allowed type contains the type of the
    entity (in particular when it is that type). *)
Theorem native_drop_allowed_types
    (on_drop : DroppedEntity → Element → DomEvent → M DomEvent)
    (allowed_types : option (list AllowedType)) (drop_json : string) (dest : Element)
    (evt : DomEvent) (w w' : World) (resolved : ResolvedNativeDrop) :
  dataset dest !! "type" = None →
  resolve_native_drop drop_json w = (Returned (Some resolved), w') →
  (allowed_types = None ∨ allowed_types = Some []
   ∨ ∃ types allowed, allowed_types = Some types ∧ allowed ∈ types
       ∧ includes (allowed_type_name allowed) (resolved_type resolved) = true) →
  native_drop_handler on_drop allowed_types drop_json dest evt w
  = on_drop (entity resolved) dest (stopPropagation evt) w'.
Proof.
  intros Htype Hresolved Hallowed.
  rewrite native_drop_handler_run, Hresolved. unfold native_dest_type. rewrite Htype.
  destruct Hallowed as [->|[->|(types & allowed & -> & Hin & Hincl)]]; [done..|].
  rewrite (includes_join _ _ (allowed_type_name allowed)); [by rewrite orb_true_r| |done].
  by apply list_elem_of_fmap_2.
Qed.

(** X8. A drop that resolves to an entity whose type the element does not
    take (the attribute, or else the joined list, is not empty and does
    not contain it) is not handed to the callback, but the propagation of
    the event is stopped all the same. *)
Theorem native_drop_wrong_type_is_swallowed
    (on_drop : DroppedEntity → Element → DomEvent → M DomEvent)
    (allowed_types : option (list AllowedType)) (drop_json : string) (dest : Element)
    (evt : DomEvent) (w w' : World) (resolved : ResolvedNativeDrop) :
  resolve_native_drop drop_json w = (Returned (Some resolved), w') →
  native_dest_type dest allowed_types ≠ EmptyString →
  includes (native_dest_type dest allowed_types) (resolved_type resolved) = false →
  native_drop_handler on_drop allowed_types drop_json dest evt w
  = (Returned (stopPropagation evt), w')
  ∧ propagationStopped (stopPropagation evt) = true.
Proof.
  intros Hresolved Hne Hincl. split; [|done].
  rewrite native_drop_handler_run, Hresolved, Hincl.
  by destruct (native_dest_type dest allowed_types).
Qed.

(** X9. What the native drop handler does with a drop it cannot resolve.
    A payload that does not parse leaves the event and the world as they
    were; a drop of a type that has no branch leaves the event as it was
    and the console one line longer; in both cases the callback is not
    called and the propagation is not stopped. A drop for an actor of a
    pack the game does not have makes the handler throw, the world
    unchanged. *)
Theorem native_drop_handler_unresolved
    (on_drop : DroppedEntity → Element → DomEvent → M DomEvent)
    (allowed_types : option (list AllowedType)) (drop_json : string) (dest : Element)
    (evt : DomEvent) (w : World) :
  (as_native_drop (safe_json_parse drop_json) = None →
     native_drop_handler on_drop allowed_types drop_json dest evt w = (Returned evt, w))
  ∧ (∀ drop, as_native_drop (safe_json_parse drop_json) = Some drop →
       loose_eq (type drop) "Item" = false → loose_eq (type drop) "Actor" = false →
       loose_eq (type drop) "JournalEntry" = false →
       native_drop_handler on_drop allowed_types drop_json dest evt w
       = (Returned evt, with_console_entry w ConsoleLog "Couldn't resolve native drop:"))
  ∧ (∀ drop, as_native_drop (safe_json_parse drop_json) = Some drop →
       type drop = Some "Actor" → truthy (pack drop) = true →
       get (packs (game w)) (pack drop) = None →
       native_drop_handler on_drop allowed_types drop_json dest evt w
       = (undefined_receiver, w)).
Proof.
  split; [|split].
  - intros Hparse. by rewrite native_drop_handler_run, (resolve_native_drop_unparsed _ _ Hparse).
  - intros drop Hparse Hitem Hactor Hjournal.
    rewrite native_drop_handler_run, (resolve_native_drop_run _ _ _ Hparse).
    unfold drop_location. by rewrite Hitem, Hactor, Hjournal.
  - intros drop Hparse Htype Hpack Hget.
    rewrite native_drop_handler_run, (resolve_native_drop_run _ _ _ Hparse).
    unfold drop_location, actor_location. by rewrite Htype, Hpack, Hget.
Qed.

End NativeDroppingProperties.

(** ** The handlers of a drop target *)

Section DropTargetProperties.
Context {mm : MachineMind} {docs : CompendiumDocuments} {imports : Imports}.

Lemma truthy_Some (s : string) : truthy (Some s) = true ↔ s ≠ EmptyString.
Proof. by destruct s. Qed.

(** X11. An event that carries no payload (no data transfer, or nothing
    or the empty string under ["text/plain"]) is ignored by every handler
    of a drop target: the event and the world stay as they are, nothing
    is returned, and neither the predicate's verdict nor the hover or drop
    handler plays a part. *)
Theorem drop_target_ignores_empty_payload (items : list Element)
    (drop_handler : DropHandlerFunc) (allow_drop : option AllowDropPredicateFunc)
    (hover_handler : option HoverHandlerFunc) (b : DropBindings) (event : DomEvent) :
  b ∈ enable_dropping items drop_handler allow_drop hover_handler →
  truthy (getData event "text/plain") = false →
  on_dragover b event = mret (event, None)
  ∧ on_dragenter b event = mret (event, None)
  ∧ on_drop_event b event = mret (event, None)
  ∧ ∀ leave, on_dragleave b = Some leave → leave event = mret (event, None).
Proof.
  intros Hb Hdata. unfold enable_dropping in Hb.
  apply list_elem_of_fmap in Hb as (item & -> & _). simpl.
  unfold dragover_handler, dragenter_handler, drop_event_handler. rewrite Hdata.
  repeat split; try done.
  intros leave. destruct hover_handler as [hover|]; [|done].
  intros [= <-]. unfold dragleave_handler. by rewrite Hdata.
Qed.

(** X12. The ["dragover"] handler leaves the world, the data transfer
    and the flag of immediate propagation as they are. Exactly when the
    event carries a payload and the drop is permitted (no predicate, or a
    predicate that holds of the payload) it returns [false], and then the
    default action is prevented and, the handler being bound with jQuery,
    the propagation of the event is stopped; otherwise it returns nothing
    and the event is unchanged. *)
Theorem dragover_handler_on_event (allow_drop : option AllowDropPredicateFunc)
    (item : Element) (event : DomEvent) (w : World) :
  let permitted :=
    truthy (getData event "text/plain")
    && drop_permitted allow_drop (or_empty (getData event "text/plain")) item event in
  ∃ event',
    dragover_handler allow_drop item event w
    = (Returned (event', if permitted then Some false else None), w)
    ∧ dataTransfer event' = dataTransfer event
    ∧ immediatePropagationStopped event' = immediatePropagationStopped event
    ∧ defaultPrevented event' = permitted || defaultPrevented event
    ∧ propagationStopped event' = permitted || propagationStopped event
    ∧ (permitted = false → event' = event).
Proof.
  intros permitted. subst permitted. unfold dragover_handler.
  destruct (truthy (getData event "text/plain")); simpl.
  - destruct (drop_permitted _ _ _ _); by eexists.
  - by eexists.
Qed.

(** X13. When the event carries a payload for which the predicate does
    not hold, ["dragenter"] returns [true] and ["dragleave"] returns
    nothing; the event and the world stay as they are and the hover
    handler is not called. *)
Theorem hover_needs_permission (allowed : AllowDropPredicateFunc) (hover : HoverHandlerFunc)
    (item : Element) (event : DomEvent) (data : string) :
  getData event "text/plain" = Some data → data ≠ EmptyString →
  allowed data item event = false →
  dragenter_handler (Some allowed) (Some hover) item event = mret (event, Some true)
  ∧ dragleave_handler (Some allowed) hover item event = mret (event, None).
Proof.
  intros Hdata Hne%truthy_Some Hallowed.
  unfold dragenter_handler, dragleave_handler. rewrite Hdata, Hne. simpl.
  by rewrite Hallowed.
Qed.

End DropTargetProperties.

(** ** The handlers of a drag source *)

Section DragSourceProperties.
Context {mm : MachineMind} {docs : CompendiumDocuments} {imports : Imports}.

(** X15. The start of a drag on an event without a data transfer throws:
    no payload is derived into the event, the propagation is not stopped
    and the start callback is not called. *)
Theorem dragstart_without_data_transfer (data_transfer_func : DragDeriveDataFunc)
    (start_stop_func : option DragStartEndFunc) (item : Element) (event : DomEvent)
    (w : World) :
  dataTransfer event = None →
  dragstart_handler data_transfer_func start_stop_func item event w = (undefined_receiver, w).
Proof. intros Hdt. unfold dragstart_handler. by rewrite Hdt. Qed.

(** The event a drag start leaves and what becomes of it. *)
Lemma dragstart_run (data_transfer_func : DragDeriveDataFunc)
    (start_stop_func : option DragStartEndFunc) (item : Element) (event : DomEvent)
    (dt : gmap string string) :
  dataTransfer event = Some dt →
  ∃ event',
    dragstart_handler data_transfer_func start_stop_func item event
    = match start_stop_func with
      | Some callback => callback Start item event'
      | None => mret event'
      end
    ∧ getData event' "text/plain" = Some (data_transfer_func item event)
    ∧ (∀ format, format ≠ "text/plain" → getData event' format = getData event format)
    ∧ propagationStopped event' = true
    ∧ immediatePropagationStopped event' = true
    ∧ defaultPrevented event' = defaultPrevented event.
Proof.
  intros Hdt.
  exists (stopImmediatePropagation (stopPropagation
            (setData "text/plain" (data_transfer_func item event) event dt))).
  repeat split.
  - unfold dragstart_handler. by rewrite Hdt.
  - unfold getData. simpl. by rewrite lookup_insert_eq.
  - intros format Hformat. unfold getData. rewrite Hdt. simpl.
    by rewrite lookup_insert_ne.
Qed.

(** X16. The start of a drag on an event with a data transfer writes the
    derived payload under ["text/plain"], replacing what was there, and
    leaves every other format as it was; it stops the propagation of the
    event, immediate propagation included, and does not touch its default
    action. The event so changed is what the start callback receives. *)
Theorem dragstart_sets_text_plain (data_transfer_func : DragDeriveDataFunc)
    (start_stop_func : option DragStartEndFunc) (item : Element) (event : DomEvent)
    (dt : gmap string string) :
  dataTransfer event = Some dt →
  ∃ event',
    dragstart_handler data_transfer_func start_stop_func item event
    = match start_stop_func with
      | Some callback => callback Start item event'
      | None => mret event'
      end
    ∧ getData event' "text/plain" = Some (data_transfer_func item event)
    ∧ (∀ format, format ≠ "text/plain" → getData event' format = getData event format)
    ∧ propagationStopped event' = true
    ∧ immediatePropagationStopped event' = true
    ∧ defaultPrevented event' = defaultPrevented event.
Proof. apply dragstart_run. Qed.

(** X18. An element from which no reference can be rebuilt, wired by
    [enable_simple_ref_dragging], starts a drag whose payload is the empty
    string; dropped on any drop target that drag has no effect: the drop
    handler is not called and the default action is not prevented. *)
Theorem unreferenced_drag_is_ignored (source target : Element)
    (drop_handler : DropHandlerFunc) (event : DomEvent) (dt : gmap string string)
    (w : World) :
  dataTransfer event = Some dt →
  recreate_ref_from_element source = None →
  ∃ event',
    dragstart_handler simple_ref_drag_data None source event w = (Returned event', w)
    ∧ getData event' "text/plain" = Some EmptyString
    ∧ drop_event_handler drop_handler target event' = mret (event', None).
Proof.
  intros Hdt Hnone.
  destruct (dragstart_run simple_ref_drag_data None source event dt Hdt)
    as (event' & Hstart & Hdata & _).
  unfold simple_ref_drag_data in Hdata. rewrite Hnone in Hdata.
  exists event'. split; [by rewrite Hstart|]. split; [done|].
  unfold drop_event_handler. by rewrite Hdata.
Qed.

End DragSourceProperties.

(** ** The drop handler for references *)

Section SimpleRefHandlerProperties.
Context {mm : MachineMind} {docs : CompendiumDocuments} {imports : Imports}.

(** X19. The drop handler for references leaves alone what it does not
    take: a payload that is no reference, and a reference dropped on an
    element whose [data-type] is not empty and does not contain its type.
    The event and the world stay as they are: the propagation is not
    stopped, nothing is resolved, logged or handed to the callback. *)
Theorem simple_ref_drop_handler_declines
    (on_drop : RegEntry → Element → DomEvent → M DomEvent)
    (ref_json : string) (dest : Element) (evt : DomEvent) :
  (is_ref (safe_json_parse ref_json) = None
   ∨ ∃ ref dest_type,
       is_ref (safe_json_parse ref_json) = Some ref
       ∧ dataset dest !! "type" = Some dest_type ∧ dest_type ≠ EmptyString
       ∧ includes dest_type (type_text ref) = false) →
  simple_ref_drop_handler on_drop ref_json dest evt = mret evt.
Proof.
  intros [Hnot|(ref & dest_type & Href & Htype & Hne%truthy_Some & Hincl)];
    unfold simple_ref_drop_handler.
  - by rewrite Hnot.
  - rewrite Href, Htype, Hne. unfold or_empty. by rewrite Hincl.
Qed.

(** X20. Whatever the allow-drop predicate lets through, the drop handler
    takes: when the predicate holds of a payload and an element, the
    payload is a reference and the handler stops the propagation of the
    event and resolves the reference; the entry found goes to the callback
    with the world as it was, and a reference that resolves to nothing
    puts one error on the console instead. *)
Theorem simple_ref_allowed_is_taken
    (on_drop : RegEntry → Element → DomEvent → M DomEvent)
    (data : string) (dest : Element) (over_event evt : DomEvent) (w : World) :
  simple_ref_allow_drop data dest over_event = true →
  ∃ ref,
    is_ref (safe_json_parse data) = Some ref
    ∧ simple_ref_drop_handler on_drop data dest evt w
      = match FoundryReg_resolve (game w) ref with
        | Some entry => on_drop entry dest (stopPropagation evt) w
        | None =>
            (Returned (stopPropagation evt),
             with_console_entry w ConsoleError "Failed to resolve ref")
        end.
Proof.
  unfold simple_ref_allow_drop, simple_ref_drop_handler.
  destruct (is_ref (safe_json_parse data)) as [ref|]; [|done].
  intros Hallow. exists ref. split; [done|].
  assert (truthy (dataset dest !! "type")
          && negb (includes (or_empty (dataset dest !! "type")) (type_text ref)) = false)
    as -> by (rewrite Hallow; apply andb_false_r).
  unfold resolve, mbind, M_bind, bind, the_game. simpl.
  by destruct (FoundryReg_resolve (game w) ref).
Qed.

End SimpleRefHandlerProperties.

(** ** Converting a reference, then resolving the drop *)

Section ConvertThenResolve.
Context {mm : MachineMind} {docs : CompendiumDocuments} {imports : Imports}.

Lemma token_actor_id_run (g : Game) (scene token : option string) (w : World) :
  token_actor_id g scene token w = (token_actor_id_of g scene token, w).
Proof.
  unfold token_actor_id, token_actor_id_of.
  destruct (get (scenes g) scene ≫= _) as [t|]; [|done]. by destruct (token_actor t).
Qed.

(** The run of the conversion for a reference of a type that converts. *)
Lemma convert_ref_run (ref : RegRef) (t : EntryType) (w : World) :
  (∀ t, entry_type_name t ≠ EmptyString) →
  ref_type ref = Some t → is_item_type t = true ∨ is_actor_type t = true →
  match referenced_token_actor (game w) (parse_reg_args (reg_name ref)) ref with
  | Thrown e => convert_ref_to_native_drop ref w = (Thrown e, w)
  | Returned actor =>
      ∃ drop, convert_ref_to_native_drop ref w = (Returned (Some drop), w)
        ∧ type drop = Some (if is_item_type t then "Item" else "Actor")
        ∧ pack drop = (if String.eqb (src (parse_reg_args (reg_name ref))) "comp_core"
                       then Some (get_pack_id t)
                       else if String.eqb (src (parse_reg_args (reg_name ref))) "comp"
                       then comp_id (parse_reg_args (reg_name ref)) else None)
        ∧ sceneId drop = (if String.eqb (src (parse_reg_args (reg_name ref))) "scene"
                             || String.eqb (src (parse_reg_args (reg_name ref))) "scene_token"
                          then scene_id (parse_reg_args (reg_name ref)) else None)
        ∧ tokenId drop = (if String.eqb (src (parse_reg_args (reg_name ref))) "scene"
                          then Some (ref_id ref)
                          else if String.eqb (src (parse_reg_args (reg_name ref))) "scene_token"
                          then token_id (parse_reg_args (reg_name ref)) else None)
        ∧ actorId drop = (if String.eqb (src (parse_reg_args (reg_name ref))) "comp_actor"
                             || String.eqb (src (parse_reg_args (reg_name ref))) "game_actor"
                          then actor_id (parse_reg_args (reg_name ref))
                          else if String.eqb (src (parse_reg_args (reg_name ref))) "scene_token"
                          then actor else None)
        ∧ id drop = (if String.eqb (src (parse_reg_args (reg_name ref))) "scene"
                     then actor else Some (ref_id ref))
  end.
Proof.
  intros Hname Htype Hkind. unfold convert_ref_to_native_drop, referenced_token_actor.
  rewrite Htype.
  change (entry_type_name <$> Some t) with (Some (entry_type_name t)).
  assert (truthy (Some (entry_type_name t)) = true) as -> by by apply truthy_Some.
  change (negb true) with false. cbv iota.
  set (rn := parse_reg_args (reg_name ref)).
  assert (∃ evt0, (if is_item_type t then Some (set_type (Some "Item") empty_drop)
                   else if is_actor_type t then Some (set_type (Some "Actor") empty_drop)
                   else None) = Some evt0
                  ∧ evt0 = set_type (Some (if is_item_type t then "Item" else "Actor")) empty_drop)
    as (evt0 & -> & ->).
  { destruct (is_item_type t); [by eexists|]. destruct Hkind as [ ? | -> ]; [done|by eexists]. }
  change ((the_game ≫= ?k) w) with (k (game w) w). cbv beta.
  destruct (String.eqb (src rn) "scene") eqn:Hscene,
    (String.eqb (src rn) "scene_token") eqn:Htoken.
  - apply String.eqb_eq in Hscene, Htoken. congruence.
  - assert (String.eqb (src rn) "comp_actor" = false) as ->
      by (apply String.eqb_eq in Hscene; by rewrite Hscene).
    assert (String.eqb (src rn) "game_actor" = false) as ->
      by (apply String.eqb_eq in Hscene; by rewrite Hscene).
    unfold mbind, M_bind, bind. simpl. rewrite token_actor_id_run.
    destruct (token_actor_id_of (game w) (scene_id rn) (Some (ref_id ref))) as [actor|e];
      [|done].
    eexists. split; [reflexivity|].
    by destruct (String.eqb (src rn) "comp_core"), (String.eqb (src rn) "comp").
  - assert (String.eqb (src rn) "comp_actor" = false) as ->
      by (apply String.eqb_eq in Htoken; by rewrite Htoken).
    assert (String.eqb (src rn) "game_actor" = false) as ->
      by (apply String.eqb_eq in Htoken; by rewrite Htoken).
    unfold mbind, M_bind, bind. simpl.
    assert (∀ evt, sceneId (set_tokenId (token_id rn) (set_sceneId (scene_id rn) evt))
                   = scene_id rn
                   ∧ tokenId (set_tokenId (token_id rn) (set_sceneId (scene_id rn) evt))
                     = token_id rn) as Hfields by done.
    destruct (String.eqb (src rn) "comp_core"), (String.eqb (src rn) "comp");
      rewrite token_actor_id_run; simpl;
      (destruct (token_actor_id_of (game w) (scene_id rn) (token_id rn)) as [actor|e];
       [|done]); by eexists.
  - destruct (String.eqb (src rn) "comp_core"), (String.eqb (src rn) "comp"),
      (String.eqb (src rn) "comp_actor"), (String.eqb (src rn) "game_actor");
      by eexists.
Qed.

(** X21. [convert_ref_to_native_drop] never changes the host's
    collections, whether it returns or throws. It writes to the console
    exactly when it returns [null], and then one error; when it returns a
    drop, and when it throws, the whole world is as it was. *)
Theorem convert_ref_to_native_drop_effects (ref : RegRef) (w : World) :
  game (convert_ref_to_native_drop ref w).2 = game w
  ∧ match convert_ref_to_native_drop ref w with
    | (Returned (Some _), w') => w' = w
    | (Returned None, w') => ∃ msg, w' = with_console_entry w ConsoleError msg
    | (Thrown _, w') => w' = w
    end.
Proof.
  assert (match convert_ref_to_native_drop ref w with
          | (Returned (Some _), w') => w' = w
          | (Returned None, w') => ∃ msg, w' = with_console_entry w ConsoleError msg
          | (Thrown _, w') => w' = w
          end) as Hrun.
  { unfold convert_ref_to_native_drop.
    destruct (ref_type ref) as [t|]; [|by eexists].
    destruct (negb (truthy (entry_type_name <$> Some t))); [by eexists|].
    assert (∀ evt0 : NativeDrop,
              match (the_game ≫= fun g =>
                       evt ← (if String.eqb (src (parse_reg_args (reg_name ref))) "comp_actor"
                              then mret (set_actorId (actor_id (parse_reg_args (reg_name ref))) evt0)
                              else if String.eqb (src (parse_reg_args (reg_name ref))) "game_actor"
                              then mret (set_actorId (actor_id (parse_reg_args (reg_name ref))) evt0)
                              else if String.eqb (src (parse_reg_args (reg_name ref))) "scene_token"
                              then actor ← token_actor_id g (sceneId evt0) (tokenId evt0);
                                   mret (set_actorId actor evt0)
                              else mret evt0);
                       evt ← (if String.eqb (src (parse_reg_args (reg_name ref))) "scene"
                              then actor ← token_actor_id g (sceneId evt) (tokenId evt);
                                   mret (set_id actor evt)
                              else mret (set_id (Some (ref_id ref)) evt));
                       mret (Some evt)) w with
              | (Returned (Some _), w') => w' = w
              | (Returned None, w') => ∃ msg, w' = with_console_entry w ConsoleError msg
              | (Thrown _, w') => w' = w
              end) as Hbody.
    { intros evt0. change ((the_game ≫= ?k) w) with (k (game w) w). cbv beta.
      unfold mbind, M_bind, bind.
      set (rn := parse_reg_args (reg_name ref)).
      destruct (String.eqb (src rn) "comp_actor"), (String.eqb (src rn) "game_actor"),
        (String.eqb (src rn) "scene_token"), (String.eqb (src rn) "scene"); simpl;
        rewrite ?token_actor_id_run; simpl;
        repeat match goal with
               | |- context [token_actor_id_of ?g ?a ?b] =>
                   destruct (token_actor_id_of g a b); simpl; rewrite ?token_actor_id_run
               end; done. }
    destruct (is_item_type t); [apply Hbody|].
    destruct (is_actor_type t); [apply Hbody|]. by eexists. }
  split; [|exact Hrun].
  destruct (convert_ref_to_native_drop ref w) as [[[drop|]|e] w']; simpl.
  - by rewrite Hrun.
  - by destruct Hrun as [msg ->].
  - by rewrite Hrun.
Qed.

(** X22. What conversion makes of a reference whose type converts, by the
    source of its registry. A reference into a scene or a token reads the
    actor of the token it names: when that token is there without an
    actor the conversion throws. Otherwise it returns a drop of type
    ["Item"] or ["Actor"] whose pack is the pack of the type for
    comp_core, the compendium's id for comp, and left out otherwise, also
    for comp_actor; whose scene and token are set for scene (the token is
    the id of the reference) and scene_token only; whose actorId is the
    one of the registry for comp_actor and game_actor, the id of the
    token's actor for scene_token, and left out otherwise, also for scene;
    and whose id is the id of the reference, except for scene, where it is
    the id of the token's actor. *)
Theorem converted_drop_context (ref : RegRef) (t : EntryType) (w : World) :
  (∀ t, entry_type_name t ≠ EmptyString) →
  ref_type ref = Some t → is_item_type t = true ∨ is_actor_type t = true →
  let rn := parse_reg_args (reg_name ref) in
  match referenced_token_actor (game w) rn ref with
  | Thrown e => convert_ref_to_native_drop ref w = (Thrown e, w)
  | Returned actor =>
      ∃ drop, convert_ref_to_native_drop ref w = (Returned (Some drop), w)
        ∧ type drop = Some (if is_item_type t then "Item" else "Actor")
        ∧ pack drop = (if String.eqb (src rn) "comp_core" then Some (get_pack_id t)
                       else if String.eqb (src rn) "comp" then comp_id rn else None)
        ∧ sceneId drop = (if String.eqb (src rn) "scene" || String.eqb (src rn) "scene_token"
                          then scene_id rn else None)
        ∧ tokenId drop = (if String.eqb (src rn) "scene" then Some (ref_id ref)
                          else if String.eqb (src rn) "scene_token" then token_id rn
                          else None)
        ∧ actorId drop = (if String.eqb (src rn) "comp_actor"
                             || String.eqb (src rn) "game_actor"
                          then actor_id rn
                          else if String.eqb (src rn) "scene_token" then actor else None)
        ∧ id drop = (if String.eqb (src rn) "scene" then actor else Some (ref_id ref))
  end.
Proof. intros Hname Htype Hkind rn. by apply convert_ref_run. Qed.

Lemma get_Some {A : Type} (collection : gmap string A) (key : string) :
  get collection (Some key) = collection !! key.
Proof. reflexivity. Qed.

(** X23. A reference into no special registry (its source is none of
    comp_core, comp, scene, scene_token, comp_actor, game_actor) converts
    to a drop that carries its type and id alone; any payload that parses
    to that drop resolves to the world item of that id for an item type
    and to the world actor of that id otherwise, and to [null] when the
    world has none. *)
Theorem world_ref_converts_and_resolves (ref : RegRef) (t : EntryType) (w : World) :
  (∀ t, entry_type_name t ≠ EmptyString) →
  ref_type ref = Some t → is_item_type t = true ∨ is_actor_type t = true →
  src (parse_reg_args (reg_name ref))
    ∉ ["comp_core"; "comp"; "scene"; "scene_token"; "comp_actor"; "game_actor"] →
  ∃ drop,
    convert_ref_to_native_drop ref w = (Returned (Some drop), w)
    ∧ ∀ event_data w',
        as_native_drop (safe_json_parse event_data) = Some drop →
        (resolve_native_drop event_data w').1
        = Returned (if is_item_type t
                    then ResolvedItem <$> items (game w') !! ref_id ref
                    else ResolvedActor <$> actors (game w') !! ref_id ref).
Proof.
  intros Hname Htype Hkind Hsrc.
  assert (∀ lit, lit ∈ ["comp_core"; "comp"; "scene"; "scene_token"; "comp_actor";
                        "game_actor"] →
                 String.eqb (src (parse_reg_args (reg_name ref))) lit = false) as Hne.
  { intros lit Hlit. apply String.eqb_neq. intros Heq. apply Hsrc. by rewrite Heq. }
  pose proof (convert_ref_run ref t w Hname Htype Hkind) as Hrun.
  unfold referenced_token_actor in Hrun.
  rewrite (Hne "scene"), (Hne "scene_token") in Hrun by (rewrite !elem_of_cons; tauto).
  destruct Hrun as (drop & Hconvert & Hty & Hpack & Hscene & Htoken & Hactor & Hid).
  rewrite (Hne "comp_core"), (Hne "comp") in Hpack by (rewrite !elem_of_cons; tauto).
  simpl in Hscene, Htoken.
  rewrite (Hne "comp_actor"), (Hne "game_actor") in Hactor by (rewrite !elem_of_cons; tauto).
  simpl in Hactor.
  exists drop. split; [done|]. intros event_data w' Hparse.
  rewrite (resolve_native_drop_run _ _ _ Hparse). simpl.
  unfold drop_location, item_location, actor_location.
  rewrite Hty, Hpack, Hscene, Htoken, Hactor, Hid.
  by destruct (is_item_type t).
Qed.

(** X24. A reference of an actor type into the registry of a scene reads
    the actor of the token its id names, and the conversion throws when
    that token has none. Otherwise the drop has the scene, the token and,
    as id, the id of the token's actor, but no actorId; resolving a
    payload that parses to that drop, in the same world, therefore does
    not go through the scene: it gives the world actor whose id is that of
    the token's actor, and [null] when the scene, the token or such a
    world actor is missing. *)
Theorem scene_actor_ref_resolves_to_world_actor (ref : RegRef) (t : EntryType) (w : World) :
  (∀ t, entry_type_name t ≠ EmptyString) →
  ref_type ref = Some t → is_item_type t = false → is_actor_type t = true →
  src (parse_reg_args (reg_name ref)) = "scene" →
  match token_actor_id_of (game w) (scene_id (parse_reg_args (reg_name ref)))
          (Some (ref_id ref)) with
  | Thrown e => convert_ref_to_native_drop ref w = (Thrown e, w)
  | Returned found =>
      ∃ drop,
        convert_ref_to_native_drop ref w = (Returned (Some drop), w)
        ∧ actorId drop = None
        ∧ tokenId drop = Some (ref_id ref)
        ∧ ∀ event_data,
            as_native_drop (safe_json_parse event_data) = Some drop →
            (resolve_native_drop event_data w).1
            = Returned (ResolvedActor <$>
                          (found ≫= fun actor_id => actors (game w) !! actor_id))
  end.
Proof.
  intros Hname Htype Hitem Hactor_type Hsrc.
  pose proof (convert_ref_run ref t w Hname Htype (or_intror Hactor_type)) as Hrun.
  unfold referenced_token_actor in Hrun. rewrite Hsrc in Hrun. simpl in Hrun.
  destruct (token_actor_id_of (game w) (scene_id (parse_reg_args (reg_name ref)))
              (Some (ref_id ref))) as [found|e]; [|done].
  destruct Hrun as (drop & Hconvert & Hty & Hpack & Hscene & Htoken & Hactor & Hid).
  rewrite Hitem in Hty.
  exists drop. repeat split; [done..|]. intros event_data Hparse.
  rewrite (resolve_native_drop_run _ _ _ Hparse). simpl.
  unfold drop_location, actor_location.
  rewrite Hty, Hpack, Hscene, Htoken, Hactor, Hid. simpl.
  rewrite andb_false_r. reflexivity.
Qed.

(** X25. A reference of an item type to an item of a compendium actor
    (source comp_actor) converts to a drop that names the actor but no
    pack. Resolving a payload that parses to that drop therefore looks for
    the actor among the world's actors, not in a compendium: it gives the
    item of that id on the world actor of that id, and [null] without
    them. *)
Theorem comp_actor_item_ref_resolves_on_world_actor (ref : RegRef) (t : EntryType)
    (w : World) :
  (∀ t, entry_type_name t ≠ EmptyString) →
  ref_type ref = Some t → is_item_type t = true →
  src (parse_reg_args (reg_name ref)) = "comp_actor" →
  truthy (actor_id (parse_reg_args (reg_name ref))) = true →
  ∃ drop,
    convert_ref_to_native_drop ref w = (Returned (Some drop), w)
    ∧ pack drop = None
    ∧ ∀ event_data w',
        as_native_drop (safe_json_parse event_data) = Some drop →
        (resolve_native_drop event_data w').1
        = Returned (ResolvedItem <$>
                      (get (actors (game w')) (actor_id (parse_reg_args (reg_name ref)))
                       ≫= fun actor => actor_items actor !! ref_id ref)).
Proof.
  intros Hname Htype Hitem Hsrc Htruthy.
  pose proof (convert_ref_run ref t w Hname Htype (or_introl Hitem)) as Hrun.
  unfold referenced_token_actor in Hrun. rewrite Hsrc in Hrun. simpl in Hrun.
  destruct Hrun as (drop & Hconvert & Hty & Hpack & Hscene & Htoken & Hactor & Hid).
  rewrite Hitem in Hty.
  exists drop. repeat split; [done..|]. intros event_data w' Hparse.
  rewrite (resolve_native_drop_run _ _ _ Hparse). simpl.
  unfold drop_location, item_location.
  rewrite Hty, Hpack, Hscene, Htoken, Hactor, Hid, Htruthy. reflexivity.
Qed.

(** X26. A reference of an item type to an item of a token's actor
    (source scene_token, scene and token named) reads the actor of that
    token, and the conversion throws when the token has none. Otherwise
    the drop resolves, for any payload that parses to it, to the item of
    that id among the items of that token's actor, and to [null] when the
    scene, the token, its actor or the item is missing. *)
Theorem scene_token_item_ref_round_trip (ref : RegRef) (t : EntryType) (w : World) :
  (∀ t, entry_type_name t ≠ EmptyString) →
  ref_type ref = Some t → is_item_type t = true →
  src (parse_reg_args (reg_name ref)) = "scene_token" →
  truthy (scene_id (parse_reg_args (reg_name ref))) = true →
  truthy (token_id (parse_reg_args (reg_name ref))) = true →
  match token_actor_id_of (game w) (scene_id (parse_reg_args (reg_name ref)))
          (token_id (parse_reg_args (reg_name ref))) with
  | Thrown e => convert_ref_to_native_drop ref w = (Thrown e, w)
  | Returned _ =>
      ∃ drop,
        convert_ref_to_native_drop ref w = (Returned (Some drop), w)
        ∧ ∀ event_data w',
            as_native_drop (safe_json_parse event_data) = Some drop →
            (resolve_native_drop event_data w').1
            = Returned (ResolvedItem <$>
                          (get (scenes (game w')) (scene_id (parse_reg_args (reg_name ref)))
                           ≫= fun scene =>
                                get (tokens scene) (token_id (parse_reg_args (reg_name ref)))
                           ≫= fun token => token_actor token
                           ≫= fun actor => actor_items actor !! ref_id ref))
  end.
Proof.
  intros Hname Htype Hitem Hsrc Hscene_set Htoken_set.
  pose proof (convert_ref_run ref t w Hname Htype (or_introl Hitem)) as Hrun.
  unfold referenced_token_actor in Hrun. rewrite Hsrc in Hrun. simpl in Hrun.
  destruct (token_actor_id_of (game w) (scene_id (parse_reg_args (reg_name ref)))
              (token_id (parse_reg_args (reg_name ref)))) as [found|e]; [|done].
  destruct Hrun as (drop & Hconvert & Hty & Hpack & Hscene & Htoken & Hactor & Hid).
  rewrite Hitem in Hty.
  exists drop. split; [done|]. intros event_data w' Hparse.
  rewrite (resolve_native_drop_run _ _ _ Hparse). simpl.
  unfold drop_location, item_location.
  rewrite Hty, Hpack, Hscene, Htoken, Hid, Hscene_set, Htoken_set. reflexivity.
Qed.

(** X27. A reference into the core compendium (source comp_core) converts
    to a drop whose pack is the pack of its type. Resolving a payload that
    parses to that drop gives the document of that id in that pack, read
    as an item or an actor, [null] when the pack has none, and a
    [TypeError] when the game has no such pack. *)
Theorem comp_core_ref_resolves_in_pack (ref : RegRef) (t : EntryType) (w : World) :
  (∀ t, entry_type_name t ≠ EmptyString) →
  ref_type ref = Some t → is_item_type t = true ∨ is_actor_type t = true →
  src (parse_reg_args (reg_name ref)) = "comp_core" →
  get_pack_id t ≠ EmptyString →
  ∃ drop,
    convert_ref_to_native_drop ref w = (Returned (Some drop), w)
    ∧ pack drop = Some (get_pack_id t)
    ∧ ∀ event_data w',
        as_native_drop (safe_json_parse event_data) = Some drop →
        (resolve_native_drop event_data w').1
        = match packs (game w') !! get_pack_id t with
          | Some p =>
              Returned (if is_item_type t
                        then ResolvedItem <$> (as_item <$> documents p !! ref_id ref)
                        else ResolvedActor <$> (as_actor <$> documents p !! ref_id ref))
          | None => undefined_receiver
          end.
Proof.
  intros Hname Htype Hkind Hsrc Hpack_set.
  pose proof (convert_ref_run ref t w Hname Htype Hkind) as Hrun.
  unfold referenced_token_actor in Hrun. rewrite Hsrc in Hrun. simpl in Hrun.
  destruct Hrun as (drop & Hconvert & Hty & Hpack & Hscene & Htoken & Hactor & Hid).
  apply truthy_Some in Hpack_set.
  exists drop. repeat split; [done..|]. intros event_data w' Hparse.
  rewrite (resolve_native_drop_run _ _ _ Hparse). simpl.
  unfold drop_location, item_location, actor_location.
  rewrite Hty, Hpack, Hscene, Htoken, Hactor, Hid, Hpack_set, !get_Some.
  destruct (is_item_type t); simpl;
    by destruct (packs (game w') !! get_pack_id t) as [p|];
      [destruct (documents p !! ref_id ref)|].
Qed.

End ConvertThenResolve.

(** ** The properties at the sample *)

Section SampleRuns.
Import Sample.
Existing Instances sample_machine_mind sample_documents sample_imports.

Lemma sample_names_nonempty : ∀ t, sample_name t ≠ EmptyString.
Proof. intros []; discriminate. Qed.

(** X6 at the slot whose [data-type] is empty: the rifle goes through,
    whatever the list of allowed types. *)
Lemma native_drop_data_type_precedence_open_slot :
  native_drop_handler keep_event weapons_only rifle_drop open_slot fresh_event
  = native_drop_handler keep_event None rifle_drop open_slot fresh_event
  ∧ (EmptyString = EmptyString →
     ∀ w resolved w', resolve_native_drop rifle_drop w = (Returned (Some resolved), w') →
       native_drop_handler keep_event weapons_only rifle_drop open_slot fresh_event w
       = keep_event (entity resolved) open_slot (stopPropagation fresh_event) w').
Proof.
  exact (native_drop_data_type_precedence keep_event weapons_only None rifle_drop open_slot
           fresh_event EmptyString eq_refl).
Defined.

(** X7 at an element without [data-type] that allows mech weapons: the
    actor of token [t1], a mech, goes through, "mech_weapon" containing
    "mech". *)
Lemma native_drop_allowed_types_mech :
  native_drop_handler keep_event weapons_only token_actor_drop plain_element fresh_event
    sample_world
  = (Returned (stopPropagation fresh_event), sample_world).
Proof.
  assert (allowed : weapons_only = None ∨ weapons_only = Some []
            ∨ ∃ types allowed, weapons_only = Some types ∧ allowed ∈ types
                ∧ includes (allowed_type_name allowed)
                    (resolved_type (ResolvedActor everest)) = true).
  { right. right. eexists _, _. split; [reflexivity|]. split; [apply list_elem_of_here|].
    reflexivity. }
  exact (native_drop_allowed_types keep_event weapons_only token_actor_drop plain_element
           fresh_event sample_world sample_world (ResolvedActor everest)
           eq_refl eq_refl allowed).
Defined.

(** X8 at the pilot's slot: the rifle resolves, is not handed over, and
    the propagation is stopped. *)
Lemma native_drop_wrong_type_is_swallowed_rifle :
  native_drop_handler keep_event None rifle_drop pilot_slot fresh_event sample_world
  = (Returned (stopPropagation fresh_event), sample_world)
  ∧ propagationStopped (stopPropagation fresh_event) = true.
Proof.
  assert (typed : native_dest_type pilot_slot None ≠ EmptyString) by discriminate.
  exact (native_drop_wrong_type_is_swallowed keep_event None rifle_drop pilot_slot
           fresh_event sample_world sample_world (ResolvedItem rifle) eq_refl typed eq_refl).
Defined.

(** X11 at an event without a data transfer. *)
Lemma drop_target_ignores_empty_payload_bare_event :
  dragover_handler (Some simple_ref_allow_drop) plain_element bare_event
  = mret (bare_event, None)
  ∧ dragenter_handler (Some simple_ref_allow_drop) (Some no_hover) plain_element bare_event
    = mret (bare_event, None)
  ∧ drop_event_handler no_drop plain_element bare_event = mret (bare_event, None)
  ∧ ∀ leave,
      Some (dragleave_handler (Some simple_ref_allow_drop) no_hover plain_element) = Some leave →
      leave bare_event = mret (bare_event, None).
Proof.
  assert (wired :
            {| drop_target := plain_element;
               allow_drop_predicate := Some simple_ref_allow_drop;
               on_dragover := dragover_handler (Some simple_ref_allow_drop) plain_element;
               on_dragenter :=
                 dragenter_handler (Some simple_ref_allow_drop) (Some no_hover) plain_element;
               on_dragleave :=
                 Some (dragleave_handler (Some simple_ref_allow_drop) no_hover plain_element);
               on_drop_event := drop_event_handler no_drop plain_element |}
            ∈ enable_dropping [plain_element] no_drop (Some simple_ref_allow_drop)
                (Some no_hover))
    by (apply list_elem_of_singleton; reflexivity).
  exact (drop_target_ignores_empty_payload [plain_element] no_drop
           (Some simple_ref_allow_drop) (Some no_hover) _ bare_event wired eq_refl).
Defined.

(** X13 at an element without [data-type], which the predicate for
    references refuses. *)
Lemma hover_needs_permission_plain_element :
  dragenter_handler (Some simple_ref_allow_drop) (Some no_hover) plain_element
    rifle_drag_event
  = mret (rifle_drag_event, Some true)
  ∧ dragleave_handler (Some simple_ref_allow_drop) no_hover plain_element rifle_drag_event
    = mret (rifle_drag_event, None).
Proof.
  assert (payload : rifle_ref_json ≠ EmptyString) by discriminate.
  exact (hover_needs_permission simple_ref_allow_drop no_hover plain_element
           rifle_drag_event rifle_ref_json eq_refl payload eq_refl).
Defined.

(** X15 at the rifle's element and an event without a data transfer. *)
Lemma dragstart_without_data_transfer_rifle :
  dragstart_handler simple_ref_drag_data None rifle_element bare_event sample_world
  = (undefined_receiver, sample_world).
Proof.
  exact (dragstart_without_data_transfer simple_ref_drag_data None rifle_element bare_event
           sample_world eq_refl).
Defined.

(** X16 at the rifle's element and an event that already carries a
    payload: the payload is replaced. *)
Lemma dragstart_sets_text_plain_rifle :
  ∃ event',
    dragstart_handler simple_ref_drag_data None rifle_element rifle_drag_event = mret event'
    ∧ getData event' "text/plain" = Some (simple_ref_drag_data rifle_element rifle_drag_event)
    ∧ (∀ format, format ≠ "text/plain" →
         getData event' format = getData rifle_drag_event format)
    ∧ propagationStopped event' = true
    ∧ immediatePropagationStopped event' = true
    ∧ defaultPrevented event' = defaultPrevented rifle_drag_event.
Proof.
  exact (dragstart_sets_text_plain simple_ref_drag_data None rifle_element rifle_drag_event
           _ eq_refl).
Defined.

(** X18 from an element without data attributes. *)
Lemma unreferenced_drag_is_ignored_plain_element :
  ∃ event',
    dragstart_handler simple_ref_drag_data None plain_element fresh_event sample_world
    = (Returned event', sample_world)
    ∧ getData event' "text/plain" = Some EmptyString
    ∧ drop_event_handler no_drop weapon_slot event' = mret (event', None).
Proof.
  exact (unreferenced_drag_is_ignored plain_element weapon_slot no_drop fresh_event ∅
           sample_world eq_refl eq_refl).
Defined.

(** X19 at the reference to the rifle dropped on the pilot's slot. *)
Lemma simple_ref_drop_handler_declines_pilot_slot :
  simple_ref_drop_handler ignore_drop rifle_ref_json pilot_slot fresh_event = mret fresh_event.
Proof.
  assert (declined :
            flat_is_ref (flat_json_parse rifle_ref_json) = None
            ∨ ∃ ref dest_type,
                flat_is_ref (flat_json_parse rifle_ref_json) = Some ref
                ∧ dataset pilot_slot !! "type" = Some dest_type ∧ dest_type ≠ EmptyString
                ∧ includes dest_type (type_text ref) = false).
  { right. eexists _, _. split; [reflexivity|]. split; [reflexivity|].
    split; [discriminate|reflexivity]. }
  exact (simple_ref_drop_handler_declines ignore_drop rifle_ref_json pilot_slot fresh_event
           declined).
Defined.

(** X20 at the reference to the rifle over the weapon slot: allowed, and
    taken; the registry finds the rifle. *)
Lemma simple_ref_allowed_is_taken_weapon_slot :
  ∃ ref,
    flat_is_ref (flat_json_parse rifle_ref_json) = Some ref
    ∧ simple_ref_drop_handler ignore_drop rifle_ref_json weapon_slot fresh_event sample_world
      = match sample_resolve sample_game ref with
        | Some entry => ignore_drop entry weapon_slot (stopPropagation fresh_event) sample_world
        | None =>
            (Returned (stopPropagation fresh_event),
             with_console_entry sample_world ConsoleError "Failed to resolve ref")
        end.
Proof.
  exact (simple_ref_allowed_is_taken ignore_drop rifle_ref_json weapon_slot rifle_drag_event
           fresh_event sample_world eq_refl).
Defined.

Lemma game_is_no_special_source :
  "game" ∉ ["comp_core"; "comp"; "scene"; "scene_token"; "comp_actor"; "game_actor"].
Proof. rewrite !elem_of_cons, elem_of_nil. intros H. repeat destruct H as [H|H]; done. Qed.

(** X22 at the reference to the blade on a compendium actor: the drop
    names the actor and no pack. *)
Lemma converted_drop_context_compendium_actor :
  ∃ drop,
    convert_ref_to_native_drop compendium_actor_blade_ref sample_world
    = (Returned (Some drop), sample_world)
    ∧ type drop = Some "Item"
    ∧ pack drop = None ∧ sceneId drop = None ∧ tokenId drop = None
    ∧ actorId drop = Some "a1" ∧ id drop = Some "i2".
Proof.
  exact (converted_drop_context compendium_actor_blade_ref MechWeapon sample_world
           sample_names_nonempty eq_refl (or_introl eq_refl)).
Defined.

(** X23 at the reference to the world's rifle. *)
Lemma world_ref_converts_and_resolves_rifle :
  ∃ drop,
    convert_ref_to_native_drop world_rifle_ref sample_world
    = (Returned (Some drop), sample_world)
    ∧ ∀ event_data w',
        flat_native_drop (flat_json_parse event_data) = Some drop →
        (resolve_native_drop event_data w').1
        = Returned (ResolvedItem <$> items (game w') !! "i1").
Proof.
  exact (world_ref_converts_and_resolves world_rifle_ref MechWeapon sample_world
           sample_names_nonempty eq_refl (or_introl eq_refl) game_is_no_special_source).
Defined.

(** X24 at the reference to the actor of token [t1] of scene [s1]: the
    drop resolves to the world actor [a1]. *)
Lemma scene_actor_ref_resolves_to_world_actor_token :
  ∃ drop,
    convert_ref_to_native_drop token_ref sample_world = (Returned (Some drop), sample_world)
    ∧ actorId drop = None
    ∧ tokenId drop = Some "t1"
    ∧ ∀ event_data,
        flat_native_drop (flat_json_parse event_data) = Some drop →
        (resolve_native_drop event_data sample_world).1
        = Returned (Some (ResolvedActor everest)).
Proof.
  exact (scene_actor_ref_resolves_to_world_actor token_ref Mech sample_world
           sample_names_nonempty eq_refl eq_refl eq_refl eq_refl).
Defined.

(** X25 at the reference to the blade on a compendium actor: the drop
    resolves to the blade of the world actor [a1]. *)
Lemma comp_actor_item_ref_resolves_on_world_actor_blade :
  ∃ drop,
    convert_ref_to_native_drop compendium_actor_blade_ref sample_world
    = (Returned (Some drop), sample_world)
    ∧ pack drop = None
    ∧ ∀ event_data w',
        flat_native_drop (flat_json_parse event_data) = Some drop →
        (resolve_native_drop event_data w').1
        = Returned (ResolvedItem <$>
                      (actors (game w') !! "a1" ≫= fun actor => actor_items actor !! "i2")).
Proof.
  exact (comp_actor_item_ref_resolves_on_world_actor compendium_actor_blade_ref MechWeapon
           sample_world sample_names_nonempty eq_refl eq_refl eq_refl eq_refl).
Defined.

(** X26 at the reference to the blade on the actor of token [t1]. *)
Lemma scene_token_item_ref_round_trip_blade :
  ∃ drop,
    convert_ref_to_native_drop token_blade_ref sample_world
    = (Returned (Some drop), sample_world)
    ∧ ∀ event_data w',
        flat_native_drop (flat_json_parse event_data) = Some drop →
        (resolve_native_drop event_data w').1
        = Returned (ResolvedItem <$>
                      (scenes (game w') !! "s1" ≫= fun scene =>
                       tokens scene !! "t1" ≫= fun token =>
                       token_actor token ≫= fun actor =>
                       actor_items actor !! "i2")).
Proof.
  exact (scene_token_item_ref_round_trip token_blade_ref MechWeapon sample_world
           sample_names_nonempty eq_refl eq_refl eq_refl eq_refl eq_refl).
Defined.

(** X27 at the reference to the rifle of the core compendium. *)
Lemma comp_core_ref_resolves_in_pack_rifle :
  ∃ drop,
    convert_ref_to_native_drop core_rifle_ref sample_world
    = (Returned (Some drop), sample_world)
    ∧ pack drop = Some "world.mech_weapon"
    ∧ ∀ event_data w',
        flat_native_drop (flat_json_parse event_data) = Some drop →
        (resolve_native_drop event_data w').1
        = match packs (game w') !! "world.mech_weapon" with
          | Some p => Returned (ResolvedItem <$> (as_item <$> documents p !! "i1"))
          | None => undefined_receiver
          end.
Proof.
  assert (named : "world." +:+ sample_name MechWeapon ≠ EmptyString) by discriminate.
  exact (comp_core_ref_resolves_in_pack core_rifle_ref MechWeapon sample_world
           sample_names_nonempty eq_refl (or_introl eq_refl) eq_refl named).
Defined.

End SampleRuns.
